(** * AirBnB data handler: a shallow embedding of [AirBnBDataHandler.js] and
      of the filter prompt of [ui.js], with the properties of its
      filter / aggregate pipeline.

    Conventions of the embedding.
    - A JavaScript string is a [string] whose characters are UTF-16 code
      units in the range U+0000..U+00FF.
    - A JavaScript Number is a binary64 value, [spec_float] at precision 53
      and maximal exponent 1024; arithmetic and comparisons are the IEEE
      ones of [SpecFloat].
    - A listing is an object whose own properties are strings (what the CSV
      loader produces); a property may be absent, which reads as
      [undefined].
    - An exception raised by the code is the [TypeError] outcome of the
      [result] type; a write that the platform refuses is the [WriteFailed]
      outcome of [exportResults].
    - Arrays are never updated in place by this code, so their contents are
      lists; module [Heap] adds the store in which handlers and arrays are
      objects with an identity.
    - [Array.prototype.sort] is stable and a decimal literal is rounded to
      the nearest Number, as the platform does. *)

From Stdlib Require Import ZArith List String Ascii Bool Lia DecimalString.
From Stdlib Require Import Sorting.Sorted Sorting.Permutation.
From Stdlib Require Import Floats.SpecFloat.
Import ListNotations.

Set Warnings "-register-all".

Local Open Scope string_scope.
Local Open Scope Z_scope.

(** ** Outcomes *)

Inductive result (A : Type) : Type :=
| Ok (a : A)
| TypeError.

Arguments Ok {A} a.
Arguments TypeError {A}.

Definition bind {A B : Type} (m : result A) (k : A -> result B) : result B :=
  match m with
  | Ok a => k a
  | TypeError => TypeError
  end.

Notation "x <- m ;; k" := (bind m (fun x => k))
  (at level 61, m at next level, right associativity).

(** [Array.prototype.filter] with a callback that may throw: elements are
    visited from left to right and the first exception aborts the call. *)
Fixpoint filterM {A : Type} (p : A -> result bool) (l : list A)
  : result (list A) :=
  match l with
  | [] => Ok []
  | x :: r =>
      b <- p x ;;
      r' <- filterM p r ;;
      Ok (if b then x :: r' else r')
  end.

(** ** Numbers *)

Module Num.

Definition number : Type := spec_float.

Definition prec : Z := 53.
Definition emax : Z := 1024.

Definition NaN : number := S754_nan.
Definition Infinity : number := S754_infinity false.
Definition zero : number := S754_zero false.

Definition add : number -> number -> number := SFadd prec emax.
Definition div : number -> number -> number := SFdiv prec emax.

(** [x <= y], [x >= y] and [x === y] on Numbers. *)
Definition le (x y : number) : bool := SFleb x y.
Definition ge (x y : number) : bool := SFleb y x.
Definition strict_eq (x y : number) : bool := SFeqb x y.

Definition is_nan (x : number) : bool :=
match x with S754_nan => true | _ => false end.

Definition is_finite (x : number) : bool :=
match x with
| S754_zero _ | S754_finite _ _ _ => true
| _ => false
end.

(** The Number nearest to an integer (ties to even); [neg0] is the sign
  given to a zero. *)
Definition of_Z (z : Z) (neg0 : bool) : number :=
binary_normalize prec emax z 0 neg0.

Definition of_nat (n : nat) : number := of_Z (Z.of_nat n) false.

(** The Number nearest to [(-1)^s * m * 10^e10]. *)
Definition of_decimal (s : bool) (m : N) (e10 : Z) : number :=
match m with
| N0 => S754_zero s
| Npos p =>
    if 0 <=? e10
    then binary_round prec emax s (p * Z.to_pos (10 ^ e10)) 0
    else
      let '(mz, ez, lz) :=
        SFdiv_core_binary prec emax (Zpos p) 0 (10 ^ (- e10)) 0 in
      binary_round_aux prec emax s mz ez lz
end.

(** Two Numbers name the same property when used as a key: [ToString] is
  injective on Numbers except that both zeros print as "0". *)
Definition same_key (x y : number) : bool :=
SFeqb x y || (is_nan x && is_nan y).

End Num.

Import Num.

(** ** Characters and strings *)

Definition is_digit (c : ascii) : bool :=
  let n := N_of_ascii c in ((48 <=? n) && (n <=? 57))%N.

Definition digit_val (c : ascii) : N := (N_of_ascii c - 48)%N.

(** White space and line terminators among the code units below U+0100:
    TAB, LF, VT, FF, CR, SP and NBSP. *)
Definition is_ws (c : ascii) : bool :=
  let n := N_of_ascii c in
  ((9 <=? n) && (n <=? 13) || (n =? 32) || (n =? 160))%N.

Fixpoint skip_ws (s : string) : string :=
  match s with
  | String c r => if is_ws c then skip_ws r else s
  | EmptyString => s
  end.

Fixpoint rev_string_onto (s acc : string) : string :=
  match s with
  | EmptyString => acc
  | String c r => rev_string_onto r (String c acc)
  end.

Definition rev_string (s : string) : string := rev_string_onto s "".

(** [String.prototype.trim]. *)
Definition trim (s : string) : string :=
  rev_string (skip_ws (rev_string (skip_ws s))).

Fixpoint filter_chars (p : ascii -> bool) (s : string) : string :=
  match s with
  | EmptyString => EmptyString
  | String c r => if p c then String c (filter_chars p r) else filter_chars p r
  end.

(** Leading decimal digits of [s] and what follows them. *)
Fixpoint span_digits (s : string) : string * string :=
  match s with
  | String c r =>
      if is_digit c
      then let '(d, t) := span_digits r in (String c d, t)
      else (EmptyString, s)
  | EmptyString => (EmptyString, EmptyString)
  end.

Fixpoint digits_value_from (acc : N) (s : string) : N :=
  match s with
  | EmptyString => acc
  | String c r => digits_value_from (10 * acc + digit_val c)%N r
  end.

Definition digits_value (s : string) : N := digits_value_from 0%N s.

Definition is_empty (s : string) : bool :=
  match s with EmptyString => true | _ => false end.

(** Strips one leading "+" or "-"; the boolean tells a "-". *)
Definition take_sign (s : string) : bool * string :=
  match s with
  | String "-" r => (true, r)
  | String "+" r => (false, r)
  | _ => (false, s)
  end.

(** ** [parseFloat] *)

(** The exponent part at the head of [s], when there is a complete one;
    otherwise the literal ends before it and the exponent is 0. *)
Definition exponent_part (s : string) : Z :=
  match s with
  | String c r =>
      if (N_of_ascii c =? 101)%N || (N_of_ascii c =? 69)%N
      then
        let '(neg, r') := take_sign r in
        let '(ds, _) := span_digits r' in
        if is_empty ds then 0
        else if neg then - Z.of_N (digits_value ds)
             else Z.of_N (digits_value ds)
      else 0
  | EmptyString => 0
  end.

(** The longest prefix of [s] that is a [StrUnsignedDecimalLiteral], as a
    Number of sign [neg]; [NaN] when no prefix is one. *)
Definition unsigned_decimal (neg : bool) (s : string) : number :=
  if prefix "Infinity" s then S754_infinity neg
  else
    let '(ip, r1) := span_digits s in
    match r1 with
    | String "." r1' =>
        let '(fp, r2) := span_digits r1' in
        if is_empty ip && is_empty fp then NaN
        else
          of_decimal neg (digits_value (ip ++ fp))
            (exponent_part r2 - Z.of_nat (String.length fp))
    | _ =>
        if is_empty ip then NaN
        else of_decimal neg (digits_value ip) (exponent_part r1)
    end.

Definition parseFloat (s : string) : number :=
  let '(neg, r) := take_sign (skip_ws s) in
  unsigned_decimal neg r.

(** ** [parseInt] with no radix argument *)

Definition is_hex_digit (c : ascii) : bool :=
  let n := N_of_ascii c in
  (is_digit c || ((97 <=? n) && (n <=? 102)) || ((65 <=? n) && (n <=? 70)))%N.

Definition hex_val (c : ascii) : N :=
  let n := N_of_ascii c in
  if is_digit c then (n - 48)%N
  else if (97 <=? n)%N then (n - 87)%N
  else (n - 55)%N.

(** Value of the leading hexadecimal digits of [s]; [None] when there is
    none. *)
Fixpoint hex_prefix_from (acc : option N) (s : string) : option N :=
  match s with
  | String c r =>
      if is_hex_digit c
      then hex_prefix_from
             (Some (16 * match acc with Some a => a | None => 0 end
                    + hex_val c)%N) r
      else acc
  | EmptyString => acc
  end.

Definition parseInt (s : string) : number :=
  let '(neg, r) := take_sign (skip_ws s) in
  let mathInt :=
    match r with
    | String "0" (String x r') =>
        if (N_of_ascii x =? 120)%N || (N_of_ascii x =? 88)%N
        then hex_prefix_from None r'
        else let '(ds, _) := span_digits r in Some (digits_value ds)
    | _ =>
        let '(ds, _) := span_digits r in
        if is_empty ds then None else Some (digits_value ds)
    end in
  match mathInt with
  | None => NaN
  | Some n => of_Z (if neg then - Z.of_N n else Z.of_N n) neg
  end.

(** ** [extractPrice] *)

Definition price_char (c : ascii) : bool :=
  is_digit c || (N_of_ascii c =? 46)%N.

(** [priceStr.replace(/[^0-9.]/g, '')] then [parseFloat]. *)
Definition extractPrice (priceStr : string) : number :=
  parseFloat (filter_chars price_char priceStr).

(** ** Listings and handlers *)

(** A listing: its own properties in creation order, all string valued. *)
Definition record : Type := list (string * string).

(** [listing.k]; [None] is [undefined]. *)
Fixpoint get (k : string) (r : record) : option string :=
  match r with
  | [] => None
  | (k', v) :: r' => if String.eqb k' k then Some v else get k r'
  end.

(** [ToString] of a property read: an absent property reads as the text
    "undefined". *)
Definition to_string (v : option string) : string :=
  match v with
  | Some s => s
  | None => "undefined"
  end.

Record handler : Type := AirBnBDataHandler { data : list record }.

Record criteria : Type := {
  price : option number;
  room_type : option string;
  bedrooms : option number;
  review_scores_rating : option number
}.

(** ** [filter] *)

(** [extractPrice(listing.price) <= criteria.price]; reading [replace] off
    an absent price throws. *)
Definition price_pass (p : number) (listing : record) : result bool :=
  match get "price" listing with
  | Some s => Ok (le (extractPrice s) p)
  | None => TypeError
  end.

(** [listing.room_type === criteria.room_type]. *)
Definition room_pass (rt : string) (listing : record) : bool :=
  match get "room_type" listing with
  | Some s => String.eqb s rt
  | None => false
  end.

(** [parseInt(listing.bedrooms) === criteria.bedrooms]. *)
Definition bedrooms_pass (b : number) (listing : record) : bool :=
  strict_eq (parseInt (to_string (get "bedrooms" listing))) b.

(** [parseFloat(listing.review_scores_rating) >= criteria.review_scores_rating]. *)
Definition rating_pass (x : number) (listing : record) : bool :=
  ge (parseFloat (to_string (get "review_scores_rating" listing))) x.

Definition filter_data (c : criteria) (d : list record) : result (list record) :=
  d1 <- match price c with
        | Some p => filterM (price_pass p) d
        | None => Ok d
        end ;;
  let d2 := match room_type c with
            | Some rt => if is_empty rt then d1 else List.filter (room_pass rt) d1
            | None => d1
            end in
  let d3 := match bedrooms c with
            | Some b => List.filter (bedrooms_pass b) d2
            | None => d2
            end in
  let d4 := match review_scores_rating c with
            | Some x => List.filter (rating_pass x) d3
            | None => d3
            end in
  Ok d4.

Definition filter (this : handler) (c : criteria) : result handler :=
  d <- filter_data c (data this) ;;
  Ok (AirBnBDataHandler d).

(** ** [computeStats] *)

Module Bucket.
Record t : Type := make { sum : number; count : nat }.
End Bucket.

(** The accumulator object of the reduction: buckets in creation order,
    keyed by the Number used as property name. *)
Definition buckets : Type := list (number * Bucket.t).

Fixpoint bucket_get (k : number) (acc : buckets) : option Bucket.t :=
  match acc with
  | [] => None
  | (k', b) :: r => if same_key k' k then Some b else bucket_get k r
  end.

Fixpoint bucket_update (k : number) (f : Bucket.t -> Bucket.t) (acc : buckets)
  : buckets :=
  match acc with
  | [] => []
  | (k', b) :: r =>
      if same_key k' k then (k', f b) :: r
      else (k', b) :: bucket_update k f r
  end.

(** [!curr.price || curr.price.trim() === ''] *)
Definition price_skipped (curr : record) : bool :=
  match get "price" curr with
  | None => true
  | Some p => is_empty p || is_empty (trim p)
  end.

Definition bedCount (curr : record) : number :=
  parseInt (to_string (get "bedrooms" curr)).

(** One step of the reduction. *)
Definition stats_step (acc : buckets) (curr : record) : buckets :=
  match get "price" curr with
  | None => acc
  | Some p =>
      if is_empty p || is_empty (trim p) then acc
      else
        let priceValue := extractPrice p in
        let k := bedCount curr in
        let acc1 := match bucket_get k acc with
                    | None => (acc ++ [(k, Bucket.make zero 0)])%list
                    | Some _ => acc
                    end in
        bucket_update k
          (fun b => Bucket.make (add (Bucket.sum b) priceValue)
                                (S (Bucket.count b)))
          acc1
  end.

Definition accumulate (d : list record) : buckets :=
  fold_left stats_step d [].

(** [count > 0 ? sum / count : 0] *)
Definition average (b : Bucket.t) : number :=
  if (0 <? Bucket.count b)%nat
  then div (Bucket.sum b) (of_nat (Bucket.count b))
  else zero.

Record StatsResult : Type := {
  count : nat;
  avgPricePerBedroom : list (number * number)
}.

Definition computeStats (this : handler) : StatsResult :=
  {| count := List.length (data this);
     avgPricePerBedroom :=
       List.map (fun kb => (fst kb, average (snd kb))) (accumulate (data this)) |}.

(** [avgPricePerBedroom[k]] *)
Fixpoint avg_get (k : number) (m : list (number * number)) : option number :=
  match m with
  | [] => None
  | (k', v) :: r => if same_key k' k then Some v else avg_get k r
  end.

(** ** [computeListingsPerHost] *)

(** A stable sort; [before a b] tells that the comparator puts [a] strictly
    before [b].  An element is inserted in front of the sorted rest of the
    array, after the elements that go strictly before it. *)
Section StableSort.
Context {A : Type} (before : A -> A -> bool).

Fixpoint insert_by (x : A) (l : list A) : list A :=
  match l with
  | [] => [x]
  | y :: r => if before y x then y :: insert_by x r else x :: y :: r
  end.

Definition stable_sort (l : list A) : list A :=
  fold_right insert_by [] l.
End StableSort.

(** The names that the object [{}] of the reduction inherits from
    [Object.prototype].  Reading [acc[hostId]] for such a host id finds the
    inherited member, not [undefined]: for "__proto__" the assignment then
    creates no property, for the others it stores a text, not a count. *)
Definition inherited_name (k : string) : bool :=
  existsb (String.eqb k)
    ["__proto__"; "constructor"; "hasOwnProperty"; "isPrototypeOf";
     "propertyIsEnumerable"; "toLocaleString"; "toString"; "valueOf";
     "__defineGetter__"; "__defineSetter__"; "__lookupGetter__";
     "__lookupSetter__"].

(** The count object of the reduction, in creation order of its
    properties, on tables with [plain_hosts]: the own properties, each
    holding a count. *)
Definition counts : Type := list (string * nat).

Fixpoint counts_get (k : string) (o : counts) : option nat :=
  match o with
  | [] => None
  | (k', v) :: r => if String.eqb k' k then Some v else counts_get k r
  end.

(** [o[k] = v]: an existing property keeps its place, a new one is created
    last. *)
Fixpoint counts_set (k : string) (v : nat) (o : counts) : counts :=
  match o with
  | [] => [(k, v)]
  | (k', v') :: r =>
      if String.eqb k' k then (k', v) :: r else (k', v') :: counts_set k v r
  end.

Fixpoint all_chars (p : ascii -> bool) (s : string) : bool :=
  match s with
  | EmptyString => true
  | String c r => p c && all_chars p r
  end.

(** A property name is an array index when it is the canonical decimal
    text of an integer below 2^32 - 1. *)
Definition array_index (k : string) : option N :=
  match k with
  | EmptyString => None
  | String c r =>
      if all_chars is_digit k
         && (negb (N_of_ascii c =? 48)%N || is_empty r)
         && (digits_value k <? 4294967295)%N
      then Some (digits_value k)
      else None
  end.

Definition is_index (k : string) : bool :=
  match array_index k with Some _ => true | None => false end.

Definition index_of (k : string) : N :=
  match array_index k with Some n => n | None => 0%N end.

(** [Object.entries]: array indices in ascending numeric order, then the
    other names in creation order. *)
Definition entries {V : Type} (o : list (string * V)) : list (string * V) :=
  (stable_sort (fun a b => (index_of (fst a) <? index_of (fst b))%N)
    (List.filter (fun e => is_index (fst e)) o)
  ++ List.filter (fun e => negb (is_index (fst e))) o)%list.

Definition hostKey (curr : record) : string := to_string (get "host_id" curr).

(** The tables whose host ids find nothing inherited: on such a table the
    count object holds own properties only, each holding a count. *)
Definition plain_hosts (d : list record) : Prop :=
  Forall (fun curr => inherited_name (hostKey curr) = false) d.

(** [acc[hostId] = (acc[hostId] || 0) + 1], for a host id that finds
    nothing inherited: [acc[hostId]] is the own count or [undefined]. *)
Definition host_step (acc : counts) (curr : record) : counts :=
  let hostId := hostKey curr in
  counts_set hostId
    (match counts_get hostId acc with Some n => n | None => 0 end + 1)%nat acc.

Definition hostListings (d : list record) : counts :=
  fold_left host_step d [].

(** What a property of the object of the reduction holds: a count, or the
    text that [+ 1] makes of an inherited member (the source text of the
    inherited function followed by one "1" per listing; its characters are
    the platform's). *)
Inductive tally : Type :=
| Count (n : nat)
| Text.

Fixpoint tally_get (k : string) (o : list (string * tally)) : option tally :=
  match o with
  | [] => None
  | (k', v) :: r => if String.eqb k' k then Some v else tally_get k r
  end.

Fixpoint tally_set (k : string) (v : tally) (o : list (string * tally))
  : list (string * tally) :=
  match o with
  | [] => [(k, v)]
  | (k', v') :: r =>
      if String.eqb k' k then (k', v) :: r else (k', v') :: tally_set k v r
  end.

(** The step of the reduction for every host id, with what [{}] inherits:
    [acc[hostId]] is the own property when there is one, else the
    inherited member when [hostId] names one, else [undefined]; assigning
    to "__proto__" a value that is no object changes nothing. *)
Definition group_step (acc : list (string * tally)) (curr : record)
  : list (string * tally) :=
  let hostId := hostKey curr in
  if String.eqb hostId "__proto__" then acc
  else
    tally_set hostId
      (match tally_get hostId acc with
       | Some (Count n) => Count (n + 1)
       | Some Text => Text
       | None => if inherited_name hostId then Text else Count (0 + 1)
       end) acc.

(** The object that the reduction returns, for every table. *)
Definition grouping (d : list record) : list (string * tally) :=
  fold_left group_step d [].

(** [(a, b) => b[1] - a[1]] is negative when [a] has the larger count.  The
    ranking of a table with [plain_hosts]: with a text among the counts
    the comparator yields NaN and the order is the platform's. *)
Definition computeListingsPerHost (this : handler) : list (string * nat) :=
  stable_sort (fun a b => (snd b <? snd a)%nat) (entries (hostListings (data this))).

(** ** [filterByHostLocation] *)

(** [s.includes(sub)] *)
Fixpoint includes (s sub : string) : bool :=
  prefix sub s ||
  match s with
  | String _ r => includes r sub
  | EmptyString => false
  end.

Definition location_pass (hostLocation : string) (listing : record) : result bool :=
  match get "host_location" listing with
  | Some s => Ok (includes s hostLocation)
  | None => TypeError
  end.

Definition filterByHostLocation (this : handler) (hostLocation : string)
  : result handler :=
  d <- filterM (location_pass hostLocation) (data this) ;;
  Ok (AirBnBDataHandler d).

(** ** Handlers as objects: the store

    The pure functions above give the contents of the arrays.  Here a
    handler is an object of a store and its [data] property a reference to
    an array of the store, so that sharing and mutation can be stated. *)

Module Heap.

Definition aref : Type := nat.
Definition href : Type := nat.

Record heap : Type := {
  arrays : list (list record);
  handlers : list aref
}.

Definition read_array (h : heap) (a : aref) : list record :=
  nth a (arrays h) [].

(** [this.data] *)
Definition data_ref (h : heap) (this : href) : aref :=
  nth this (handlers h) 0%nat.

Definition contents (h : heap) (this : href) : list record :=
  read_array h (data_ref h this).

Definition alloc_array (l : list record) (h : heap) : heap * aref :=
  ({| arrays := arrays h ++ [l]; handlers := handlers h |},
   List.length (arrays h)).

(** [AirBnBDataHandler(data)]: a new object holding the reference. *)
Definition new_handler (a : aref) (h : heap) : heap * href :=
  ({| arrays := arrays h; handlers := handlers h ++ [a] |},
   List.length (handlers h)).

(** [Array.prototype.filter] returns a newly allocated array. *)
Definition array_filter (p : record -> result bool) (a : aref) (h : heap)
  : result (heap * aref) :=
  l <- filterM p (read_array h a) ;;
  Ok (alloc_array l h).

Definition pure (p : record -> bool) (listing : record) : result bool :=
  Ok (p listing).

Definition filter (this : href) (c : criteria) (h : heap)
  : result (heap * href) :=
  let filteredData := data_ref h this in
  s1 <- match price c with
        | Some p => array_filter (price_pass p) filteredData h
        | None => Ok (h, filteredData)
        end ;;
  s2 <- match room_type c with
        | Some rt =>
            if is_empty rt then Ok s1
            else array_filter (pure (room_pass rt)) (snd s1) (fst s1)
        | None => Ok s1
        end ;;
  s3 <- match bedrooms c with
        | Some b => array_filter (pure (bedrooms_pass b)) (snd s2) (fst s2)
        | None => Ok s2
        end ;;
  s4 <- match review_scores_rating c with
        | Some x => array_filter (pure (rating_pass x)) (snd s3) (fst s3)
        | None => Ok s3
        end ;;
  Ok (new_handler (snd s4) (fst s4)).

End Heap.

(** ** The filter prompt of the shell *)

(** The criteria object built from the four answers of menu entry 1:
    [price ? parseFloat(price) : undefined], [roomType || undefined], ... *)
Definition filterParams (price roomType bedrooms rating : string) : criteria :=
  {| price := if is_empty price then None else Some (parseFloat price);
     room_type := if is_empty roomType then None else Some roomType;
     bedrooms := if is_empty bedrooms then None else Some (parseInt bedrooms);
     review_scores_rating :=
       if is_empty rating then None else Some (parseFloat rating) |}.

(** [handler = handler.filter(filterParams)] *)
Definition shell_filter (h : handler) (price roomType bedrooms rating : string)
  : result handler :=
  filter h (filterParams price roomType bedrooms rating).

(** ** Values and the export document *)

(** The JavaScript values that listings and calculation results are made
    of.  An object is the list of its own properties in enumeration
    order. *)
Inductive value : Type :=
| VUndefined
| VNull
| VBool (b : bool)
| VNum (n : number)
| VStr (s : string)
| VArr (l : list value)
| VObj (l : list (string * value)).

(** The exported document, as the tree that its text denotes.  The text
    itself (indentation, string escapes, digits of a number) is the
    platform's: [JSON.parse] reads back the tree that [JSON.stringify]
    printed. *)
Inductive json : Type :=
| JNull
| JBool (b : bool)
| JNum (n : number)
| JStr (s : string)
| JArr (l : list json)
| JObj (l : list (string * json)).

(** [SerializeJSONProperty]: [None] stands for [undefined], a property that
    is left out.  A Number that is not finite is written [null]; both zeros
    are written [0]. *)
Fixpoint serialize (v : value) : option json :=
  match v with
  | VUndefined => None
  | VNull => Some JNull
  | VBool b => Some (JBool b)
  | VNum n =>
      Some (match n with
            | S754_zero _ => JNum zero
            | S754_finite _ _ _ => JNum n
            | _ => JNull
            end)
  | VStr s => Some (JStr s)
  | VArr l =>
      Some (JArr (List.map (fun x => match serialize x with
                                     | Some j => j
                                     | None => JNull
                                     end) l))
  | VObj l =>
      Some (JObj (List.flat_map
                    (fun kx => match serialize (snd kx) with
                               | Some j => [(fst kx, j)]
                               | None => []
                               end) l))
  end.

(** [JSON.parse] of a document. *)
Fixpoint parse (j : json) : value :=
  match j with
  | JNull => VNull
  | JBool b => VBool b
  | JNum n => VNum n
  | JStr s => VStr s
  | JArr l => VArr (List.map parse l)
  | JObj l => VObj (List.map (fun kx => (fst kx, parse (snd kx))) l)
  end.

Definition record_value (r : record) : value :=
  VObj (List.map (fun kv => (fst kv, VStr (snd kv))) (entries r)).

Definition data_value (d : list record) : value :=
  VArr (List.map record_value d).

(** The file system: the documents written so far, latest first, and the
    paths at which [writeFile] succeeds (the others are in a missing or
    protected directory, or are no file name at all). *)
Record files : Type := {
  contents : list (string * json);
  writable : string -> bool
}.

Fixpoint lookup_file (path : string) (l : list (string * json)) : option json :=
  match l with
  | [] => None
  | (p, doc) :: r => if String.eqb p path then Some doc else lookup_file path r
  end.

Definition read_file (path : string) (fs : files) : option json :=
  lookup_file path (contents fs).

(** How the promise of [exportResults] settles: resolved with [this] once
    the file is written, or rejected by [writeFile]. *)
Inductive written : Type :=
| Written (fs : files) (this : handler)
| WriteFailed.

(** [{ filteredListings: this.data, calculations }] *)
Definition exportContent (this : handler) (calculations : value) : value :=
  VObj [("filteredListings", data_value (data this));
        ("calculations", calculations)].

(** [exportResults]: a missing [calculations] argument defaults to the
    empty object; the document is written at [filePath] and [this] is
    returned, or the failure of [writeFile] is passed on. *)
Definition exportResults (this : handler) (filePath : string)
  (calculations : value) (fs : files) : written :=
  let calculations := match calculations with
                      | VUndefined => VObj []
                      | _ => calculations
                      end in
  match serialize (exportContent this calculations) with
  | Some doc =>
      if writable fs filePath
      then Written {| contents := (filePath, doc) :: contents fs;
                      writable := writable fs |} this
      else WriteFailed
  | None => WriteFailed
  end.

(** Reading an export back. *)
Definition read_export (filePath : string) (fs : files) : option value :=
  option_map parse (read_file filePath fs).

(** ** Calculation results as values *)

(** The property name of a Number: [ToString] for NaN, the infinities and
    the integers below 10^21, which print in plain decimal.  The exponent
    notation of larger Numbers and the digits of fractions are not
    modelled: [None]. *)
Definition number_key (x : number) : option string :=
  match x with
  | S754_nan => Some "NaN"
  | S754_infinity s => Some (if s then "-Infinity" else "Infinity")
  | S754_zero _ => Some "0"
  | S754_finite s m e =>
      let magnitude :=
        if 0 <=? e then Some (Zpos m * 2 ^ e)
        else if Zpos m mod 2 ^ (- e) =? 0 then Some (Zpos m / 2 ^ (- e))
             else None in
      match magnitude with
      | Some z =>
          if z <? 10 ^ 21
          then Some ((if s then "-" else "")
                     ++ NilEmpty.string_of_uint (N.to_uint (Z.to_N z)))
          else None
      | None => None
      end
  end.

Fixpoint named_averages (m : list (number * number))
  : option (list (string * value)) :=
  match m with
  | [] => Some []
  | (k, v) :: r =>
      match number_key k, named_averages r with
      | Some name, Some r' => Some ((name, VNum v) :: r')
      | _, _ => None
      end
  end.

(** The object that [computeStats] returns. *)
Definition stats_value (s : StatsResult) : option value :=
  match named_averages (avgPricePerBedroom s) with
  | Some props =>
      Some (VObj [("count", VNum (of_nat (count s)));
                  ("avgPricePerBedroom", VObj (entries props))])
  | None => None
  end.

(** The array that [computeListingsPerHost] returns. *)
Definition ranking_value (r : list (string * nat)) : value :=
  VArr (List.map (fun e => VArr [VStr (fst e); VNum (of_nat (snd e))]) r).

(** A value without [undefined] anywhere in it. *)
Fixpoint defined (v : value) : bool :=
  match v with
  | VUndefined => false
  | VArr l => forallb defined l
  | VObj l => forallb (fun kx => defined (snd kx)) l
  | _ => true
  end.

(** The value with [null] in place of each NaN or infinite Number, and zero
    in place of negative zero. *)
Fixpoint nulled (v : value) : value :=
  match v with
  | VNum n =>
      match n with
      | S754_zero _ => VNum zero
      | S754_finite _ _ _ => VNum n
      | _ => VNull
      end
  | VArr l => VArr (List.map nulled l)
  | VObj l => VObj (List.map (fun kx => (fst kx, nulled (snd kx))) l)
  | _ => v
  end.

(** What is read at [filePath] once [exportResults] has settled; nothing
    when it failed. *)
Definition read_back (filePath : string) (w : written) : option value :=
  match w with
  | Written fs _ => read_export filePath fs
  | WriteFailed => None
  end.

(** A value that a document can hold as it is: no [undefined], no NaN, no
    infinity and no negative zero in it. *)
Fixpoint lossless (v : value) : bool :=
  match v with
  | VUndefined => false
  | VNull | VBool _ | VStr _ => true
  | VNum n =>
      match n with
      | S754_finite _ _ _ | S754_zero false => true
      | _ => false
      end
  | VArr l => forallb lossless l
  | VObj l => forallb (fun kx => lossless (snd kx)) l
  end.

(** Structural induction on values, through the lists. *)
Section ValueInduction.
Variable P : value -> Prop.
Hypothesis P_undefined : P VUndefined.
Hypothesis P_null : P VNull.
Hypothesis P_bool : forall b, P (VBool b).
Hypothesis P_num : forall n, P (VNum n).
Hypothesis P_str : forall s, P (VStr s).
Hypothesis P_arr : forall l, Forall P l -> P (VArr l).
Hypothesis P_obj : forall l, Forall (fun kx => P (snd kx)) l -> P (VObj l).

Fixpoint value_induction (v : value) : P v :=
  match v with
  | VUndefined => P_undefined
  | VNull => P_null
  | VBool b => P_bool b
  | VNum n => P_num n
  | VStr s => P_str s
  | VArr l =>
      P_arr l ((fix go (l : list value) : Forall P l :=
                  match l with
                  | [] => Forall_nil P
                  | x :: r => Forall_cons x (value_induction x) (go r)
                  end) l)
  | VObj l =>
      P_obj l ((fix go (l : list (string * value))
                : Forall (fun kx => P (snd kx)) l :=
                  match l with
                  | [] => Forall_nil _
                  | kx :: r => Forall_cons kx (value_induction (snd kx)) (go r)
                  end) l)
  end.
End ValueInduction.

(** ** The menu loop of the shell

    [startUI] after the data is loaded.  The lines typed by the user are
    the list [input]; what [console.log] prints is a list of messages (the
    prompts of [rl.question] are not logged).  The listings that the loader
    returned and the files on disk are given. *)

Module Shell.

Inductive message : Type :=
| Loaded (n : nat)
| Menu
| FilteredCount (n : nat)
| StatsHeader
| TotalListings (n : nat)
| AveragePrices (m : list (number * number))
| Rankings (r : list (string * nat))
| LocationCount (n : nat)
| Exported (filePath : string)
| InvalidOption.

(** The variables of [startUI]: [handler], [calculations], the files
    written and the console. *)
Record session : Type := {
  working : handler;
  calculations : list (string * value);
  disk : files;
  console : list message
}.

Definition log (m : message) (s : session) : session :=
  {| working := working s; calculations := calculations s; disk := disk s;
     console := (console s ++ [m])%list |}.

(** [o[k]] and [o[k] = v] on an object given in creation order. *)
Fixpoint property_get {V : Type} (k : string) (o : list (string * V))
  : option V :=
  match o with
  | [] => None
  | (k', v) :: r => if String.eqb k' k then Some v else property_get k r
  end.

Fixpoint property_set {V : Type} (k : string) (v : V) (o : list (string * V))
  : list (string * V) :=
  match o with
  | [] => [(k, v)]
  | (k', v') :: r =>
      if String.eqb k' k then (k', v) :: r else (k', v') :: property_set k v r
  end.

(** What a menu entry does: the next session, an exception that escapes
    the loop, or a result object whose property names are not modelled
    (see [number_key]). *)
Inductive step : Type :=
| Next (s : session)
| Throw
| NoModel.

(** Entry 1. *)
Definition choose_filter (s : session) (price roomType bedrooms rating : string)
  : step :=
  match filter (working s) (filterParams price roomType bedrooms rating) with
  | Ok h =>
      Next (log (FilteredCount (List.length (data h)))
              {| working := h; calculations := calculations s;
                 disk := disk s; console := console s |})
  | TypeError => Throw
  end.

(** Entry 2. *)
Definition choose_stats (s : session) : step :=
  let stats := computeStats (working s) in
  match stats_value stats with
  | Some v =>
      Next (log (AveragePrices (avgPricePerBedroom stats))
              (log (TotalListings (count stats))
                 (log StatsHeader
                    {| working := working s;
                       calculations := property_set "stats" v (calculations s);
                       disk := disk s; console := console s |})))
  | None => NoModel
  end.

(** Entry 3. *)
Definition choose_rankings (s : session) : step :=
  let rankings := computeListingsPerHost (working s) in
  Next (log (Rankings rankings)
          {| working := working s;
             calculations :=
               property_set "rankings" (ranking_value rankings) (calculations s);
             disk := disk s; console := console s |}).

(** Entry 4. *)
Definition choose_location (s : session) (location : string) : step :=
  match filterByHostLocation (working s) location with
  | Ok locationFilteredHandler =>
      let n := List.length (data locationFilteredHandler) in
      Next (log (LocationCount n)
              {| working := working s;
                 calculations :=
                   property_set "locationCount"
                     (VArr [VStr location; VNum (of_nat n)]) (calculations s);
                 disk := disk s; console := console s |})
  | TypeError => Throw
  end.

(** Entry 5: the rejection of [exportResults] is not caught. *)
Definition choose_export (s : session) (filePath : string) : step :=
  match exportResults (working s) filePath (VObj (entries (calculations s)))
          (disk s) with
  | Written fs _ =>
      Next (log (Exported filePath)
              {| working := working s; calculations := calculations s;
                 disk := fs; console := console s |})
  | WriteFailed => Throw
  end.

(** How a run ends: entry 6 was chosen, the input ended while a question
    was pending, or an exception escaped [startUI]. *)
Inductive outcome : Type :=
| Exited (s : session)
| Waiting (s : session)
| Uncaught (s : session)
| Unmodelled.

(** The [while (!exit)] loop. *)
Fixpoint loop (s : session) (input : list string) : outcome :=
  let s := log Menu s in
  match input with
  | [] => Waiting s
  | choice :: rest =>
      let c := trim choice in
      if String.eqb c "1" then
        match rest with
        | price :: roomType :: bedrooms :: rating :: rest' =>
            match choose_filter s price roomType bedrooms rating with
            | Next s' => loop s' rest'
            | Throw => Uncaught s
            | NoModel => Unmodelled
            end
        | _ => Waiting s
        end
      else if String.eqb c "2" then
        match choose_stats s with
        | Next s' => loop s' rest
        | Throw => Uncaught s
        | NoModel => Unmodelled
        end
      else if String.eqb c "3" then
        match choose_rankings s with
        | Next s' => loop s' rest
        | Throw => Uncaught s
        | NoModel => Unmodelled
        end
      else if String.eqb c "4" then
        match rest with
        | location :: rest' =>
            match choose_location s location with
            | Next s' => loop s' rest'
            | Throw => Uncaught s
            | NoModel => Unmodelled
            end
        | [] => Waiting s
        end
      else if String.eqb c "5" then
        match rest with
        | filePath :: rest' =>
            match choose_export s filePath with
            | Next s' => loop s' rest'
            | Throw => Uncaught s
            | NoModel => Unmodelled
            end
        | [] => Waiting s
        end
      else if String.eqb c "6" then Exited s
      else loop (log InvalidOption s) rest
  end.

(** [startUI] once [loadData] has returned the listings [loaded]. *)
Definition startUI (loaded : list record) (fs : files) (input : list string)
  : outcome :=
  loop {| working := AirBnBDataHandler loaded; calculations := [];
          disk := fs;
          console := [Loaded (List.length loaded)] |} input.

(** The session in which a run ended, when it is modelled. *)
Definition final (o : outcome) : option session :=
  match o with
  | Exited s | Waiting s | Uncaught s => Some s
  | Unmodelled => None
  end.

End Shell.

(** ** Vocabulary of the statements *)

(** [l1] is [l2] with some elements left out, the others in their order. *)
Inductive subseq {A : Type} : list A -> list A -> Prop :=
| subseq_nil : subseq [] []
| subseq_skip x l1 l2 : subseq l1 l2 -> subseq l1 (x :: l2)
| subseq_keep x l1 l2 : subseq l1 l2 -> subseq (x :: l1) (x :: l2).

Definition has_field (k : string) (r : record) : bool :=
  match get k r with Some _ => true | None => false end.

Definition no_criteria : criteria :=
  {| price := None; room_type := None; bedrooms := None;
     review_scores_rating := None |}.





(** The conjunction of the constraints of [c] on a listing. *)
Definition price_ok (c : criteria) (r : record) : bool :=
  match price c, get "price" r with
  | Some p, Some s => le (extractPrice s) p
  | Some _, None => false
  | None, _ => true
  end.

Definition room_type_ok (c : criteria) (r : record) : bool :=
  match room_type c with
  | Some rt => is_empty rt || room_pass rt r
  | None => true
  end.

Definition bedrooms_ok (c : criteria) (r : record) : bool :=
  match bedrooms c with Some b => bedrooms_pass b r | None => true end.

Definition rating_ok (c : criteria) (r : record) : bool :=
  match review_scores_rating c with Some x => rating_pass x r | None => true end.

Definition satisfies (c : criteria) (r : record) : bool :=
  price_ok c r && room_type_ok c r && bedrooms_ok c r && rating_ok c r.

(** What the price criterion [p] alone keeps. *)
Definition price_kept (p : number) (r : record) : bool :=
  price_ok {| price := Some p; room_type := None; bedrooms := None;
              review_scores_rating := None |} r.

(** What [filterByHostLocation] keeps of listings that have a location. *)
Definition location_kept (hostLocation : string) (r : record) : bool :=
  match get "host_location" r with
  | Some s => includes s hostLocation
  | None => false
  end.

(** The canonical representative of a Number used as property name. *)
Definition key_norm (x : number) : number :=
  match x with
  | S754_zero _ => S754_zero false
  | _ => x
  end.

(** The price that [computeStats] adds for a listing it does not skip. *)
Definition priceValue (x : record) : number :=
  match get "price" x with
  | Some p => extractPrice p
  | None => NaN
  end.

(** The listings that [computeStats] accumulates into bucket [k]. *)
Definition contributes (k : number) (x : record) : bool :=
  negb (price_skipped x) && same_key (bedCount x) k.

Definition bump (x : record) (b : Bucket.t) : Bucket.t :=
  Bucket.make (add (Bucket.sum b) (priceValue x)) (S (Bucket.count b)).

Definition bucket_or_new (ob : option Bucket.t) : Bucket.t :=
  match ob with
  | Some b => b
  | None => Bucket.make zero 0
  end.

(** The distinct elements of a list, each at its first occurrence. *)
Fixpoint first_seen (l : list string) : list string :=
  match l with
  | [] => []
  | x :: r => x :: List.filter (fun y => negb (String.eqb y x)) (first_seen r)
  end.

(** The order in which [Object.entries] lists property names created in the
    order [l]: array indices ascending, then the other names as created. *)
Definition property_order (l : list string) : list string :=
  (stable_sort (fun a b => (index_of a <? index_of b)%N)
     (List.filter is_index (first_seen l))
   ++ List.filter (fun k => negb (is_index k)) (first_seen l))%list.

Definition mem (k : string) (l : list string) : bool :=
  existsb (String.eqb k) l.

(** A file system without any file, in which every path but the empty one
    can be written. *)
Definition blank_disk : files :=
  {| contents := []; writable := fun path => negb (is_empty path) |}.

Fixpoint zeros (n : nat) : string :=
  match n with
  | O => EmptyString
  | S k => String "0" (zeros k)
  end.

(** A price of 310 digits. *)
Definition huge_price : string := String "1" (zeros 309).

Module Heap_wf.
Import Heap.
(** Every handler of the store points to an array of the store. *)
Definition wf (h : heap) : Prop :=
  Forall (fun a => (a < List.length (arrays h))%nat) (handlers h).

(** The state between two passes: the store has only grown by new
    arrays, no handler was touched, and the current array holds [l]. *)
Definition stage (h : heap) (s : heap * aref) (l : list record) : Prop :=
  exists ext,
    arrays (fst s) = (arrays h ++ ext)%list
    /\ handlers (fst s) = handlers h
    /\ (snd s < List.length (arrays (fst s)))%nat
    /\ read_array (fst s) (snd s) = l.
End Heap_wf.

(** A Number below zero. *)
Definition is_negative (x : number) : bool :=
  match x with
  | S754_infinity true | S754_finite true _ _ => true
  | _ => false
  end.

(** A Number that is zero or above, or [Infinity]. *)
Definition is_nonnegative (x : number) : bool :=
  match x with
  | S754_zero false | S754_infinity false | S754_finite false _ _ => true
  | _ => false
  end.

(** The criteria objects to which [filter] applies no pass. *)
Definition nothing_applied (c : criteria) : Prop :=
  price c = None
  /\ (room_type c = None \/ room_type c = Some "")
  /\ bedrooms c = None
  /\ review_scores_rating c = None.

(** The listings counted by all the buckets together. *)
Definition bucket_total (acc : buckets) : nat :=
  list_sum (List.map (fun kb => Bucket.count (snd kb)) acc).

(** No two buckets are named by the same Number. *)
Fixpoint keys_distinct (acc : buckets) : Prop :=
  match acc with
  | [] => True
  | (k, _) :: r => bucket_get k r = None /\ keys_distinct r
  end.

(** The listings grouped under the name "undefined". *)
Definition undefined_host (r : record) : bool :=
  match get "host_id" r with
  | None => true
  | Some s => String.eqb s "undefined"
  end.

(** * Properties *)

(** ** Lists and outcomes *)

Lemma subseq_refl {A : Type} (l : list A) : subseq l l.
Proof. induction l; constructor; assumption. Qed.

Lemma subseq_trans {A : Type} (l1 l2 l3 : list A) :
  subseq l1 l2 -> subseq l2 l3 -> subseq l1 l3.
Proof.
  intros H12 H23. revert l1 H12.
  induction H23 as [|x m2 m3 H IH|x m2 m3 H IH]; intros l1 H12.
  - assumption.
  - apply subseq_skip. apply IH. assumption.
  - inversion H12; subst.
    + apply subseq_skip. apply IH. assumption.
    + apply subseq_keep. apply IH. assumption.
Qed.

Lemma subseq_filter {A : Type} (p : A -> bool) (l : list A) :
  subseq (List.filter p l) l.
Proof.
  induction l as [|x l IH]; simpl.
  - constructor.
  - destruct (p x); constructor; assumption.
Qed.

Lemma subseq_In {A : Type} (l1 l2 : list A) (x : A) :
  subseq l1 l2 -> In x l1 -> In x l2.
Proof.
  induction 1 as [|y m1 m2 H IH|y m1 m2 H IH]; simpl; intuition.
Qed.

Lemma filterM_pure {A : Type} (p : A -> bool) (l : list A) :
  filterM (fun x => Ok (p x)) l = Ok (List.filter p l).
Proof.
  induction l as [|x l IH]; simpl.
  - reflexivity.
  - rewrite IH. simpl. reflexivity.
Qed.

(** A callback that returns on every element makes the call return, with
    the elements on which it returned [true]. *)
Lemma filterM_total {A : Type} (p : A -> result bool) (q : A -> bool)
  (l : list A) :
  Forall (fun x => p x = Ok (q x)) l ->
  filterM p l = Ok (List.filter q l).
Proof.
  induction 1 as [|x l Hx Hl IH]; simpl.
  - reflexivity.
  - rewrite Hx, IH. simpl. reflexivity.
Qed.

(** A callback that throws on some element makes the call throw. *)
Lemma filterM_throws {A : Type} (p : A -> result bool) (l : list A) :
  Exists (fun x => p x = TypeError) l -> filterM p l = TypeError.
Proof.
  induction 1 as [x l Hx|x l Hl IH]; simpl.
  - rewrite Hx. reflexivity.
  - rewrite IH. destruct (p x); reflexivity.
Qed.

Lemma filterM_subseq {A : Type} (p : A -> result bool) (l out : list A) :
  filterM p l = Ok out -> subseq out l.
Proof.
  revert out. induction l as [|x l IH]; simpl; intros out H.
  - inversion H. constructor.
  - destruct (p x) as [b|]; simpl in H; [|discriminate].
    destruct (filterM p l) as [r'|]; simpl in H; [|discriminate].
    inversion H; subst. destruct b; constructor; apply IH; reflexivity.
Qed.

Lemma filter_filter {A : Type} (p q : A -> bool) (l : list A) :
  List.filter q (List.filter p l) = List.filter (fun x => p x && q x) l.
Proof.
  induction l as [|x l IH]; simpl; [reflexivity|].
  destruct (p x); simpl; [destruct (q x)|]; rewrite IH; reflexivity.
Qed.

Lemma filter_true {A : Type} (l : list A) : List.filter (fun _ => true) l = l.
Proof. induction l as [|x l IH]; simpl; [|rewrite IH]; reflexivity. Qed.

Lemma filter_false {A : Type} (p : A -> bool) (l : list A) :
  (forall x, In x l -> p x = false) -> List.filter p l = [].
Proof.
  induction l as [|x l IH]; simpl; intros H; [reflexivity|].
  rewrite (H x) by (left; reflexivity). apply IH. intros y Hy. apply H.
  right. assumption.
Qed.

(** ** Numbers *)

Lemma le_nan_r (x : number) : le x NaN = false.
Proof. destruct x as [s|s| |s m e]; try destruct s; reflexivity. Qed.

Lemma le_nan_l (x : number) : le NaN x = false.
Proof. reflexivity. Qed.

Lemma strict_eq_nan_r (x : number) : strict_eq x NaN = false.
Proof. destruct x as [s|s| |s m e]; try destruct s; reflexivity. Qed.

Lemma is_nan_eq (x : number) : is_nan x = true -> x = NaN.
Proof. destruct x; simpl; intros H; try discriminate; reflexivity. Qed.

Lemma le_not_nan (x y : number) : le x y = true -> is_nan x = false.
Proof. destruct x; simpl; intros H; try reflexivity. discriminate. Qed.

Lemma add_nan_r (x : number) : add x NaN = NaN.
Proof. destruct x; reflexivity. Qed.

Lemma add_nan_l (x : number) : add NaN x = NaN.
Proof. reflexivity. Qed.

Lemma div_nan_l (x : number) : div NaN x = NaN.
Proof. reflexivity. Qed.

(** ** [filter]: the passes *)

Lemma has_field_get (k : string) (r : record) :
  has_field k r = true -> exists s, get k r = Some s.
Proof.
  unfold has_field. destruct (get k r) as [s|]; intros H.
  - exists s. reflexivity.
  - discriminate.
Qed.

(** The price pass returns on a table whose listings all have a price. *)
Lemma price_pass_total (p : number) (d : list record) :
  Forall (fun r => has_field "price" r = true) d ->
  filterM (price_pass p) d
  = Ok (List.filter (price_ok {| price := Some p; room_type := None;
                                bedrooms := None;
                                review_scores_rating := None |}) d).
Proof.
  intros H. apply filterM_total.
  eapply Forall_impl; [|exact H]. intros r Hr.
  apply has_field_get in Hr. destruct Hr as [s Hs].
  unfold price_pass, price_ok. simpl. rewrite Hs. reflexivity.
Qed.

Lemma price_ok_ext (c c' : criteria) (d : list record) :
  price c = price c' ->
  List.filter (price_ok c) d = List.filter (price_ok c') d.
Proof.
  intros H. apply filter_ext. intros r. unfold price_ok. rewrite H.
  reflexivity.
Qed.

(** On a table that cannot make the price pass throw, [filter] is the
    list filter by the conjunction of the constraints. *)
Lemma filter_data_satisfies (c : criteria) (d : list record) :
  price c = None \/ Forall (fun r => has_field "price" r = true) d ->
  filter_data c d = Ok (List.filter (satisfies c) d).
Proof.
  intros H. unfold filter_data.
  assert (Hp : match price c with
               | Some p => filterM (price_pass p) d
               | None => Ok d
               end = Ok (List.filter (price_ok c) d)).
  { destruct (price c) as [p|] eqn:Hc.
    - destruct H as [H|H]; [discriminate|].
      rewrite (price_pass_total p d H). f_equal.
      apply price_ok_ext. simpl. symmetry. assumption.
    - rewrite <- (filter_true d) at 1. f_equal. apply filter_ext.
      intros r. unfold price_ok. rewrite Hc. reflexivity. }
  rewrite Hp. simpl. f_equal.
  assert (H2 : match room_type c with
               | Some rt => if is_empty rt then List.filter (price_ok c) d
                            else List.filter (room_pass rt) (List.filter (price_ok c) d)
               | None => List.filter (price_ok c) d
               end
               = List.filter (fun r => price_ok c r && room_type_ok c r) d).
  { unfold room_type_ok. destruct (room_type c) as [rt|].
    - destruct (is_empty rt); simpl.
      + apply filter_ext. intros r. rewrite andb_true_r. reflexivity.
      + apply filter_filter.
    - apply filter_ext. intros r. rewrite andb_true_r. reflexivity. }
  rewrite H2.
  assert (H3 : match bedrooms c with
               | Some b => List.filter (bedrooms_pass b)
                   (List.filter (fun r => price_ok c r && room_type_ok c r) d)
               | None => List.filter (fun r => price_ok c r && room_type_ok c r) d
               end
               = List.filter
                   (fun r => price_ok c r && room_type_ok c r && bedrooms_ok c r) d).
  { unfold bedrooms_ok. destruct (bedrooms c) as [b|].
    - apply filter_filter.
    - apply filter_ext. intros r. rewrite andb_true_r. reflexivity. }
  rewrite H3. unfold satisfies, rating_ok.
  destruct (review_scores_rating c) as [x|].
  - apply filter_filter.
  - apply filter_ext. intros r. rewrite andb_true_r. reflexivity.
Qed.

(** When it returns, [filter] returns a subsequence. *)
Lemma filter_data_subseq (c : criteria) (d out : list record) :
  filter_data c d = Ok out -> subseq out d.
Proof.
  unfold filter_data. intros H.
  destruct (match price c with
            | Some p => filterM (price_pass p) d
            | None => Ok d
            end) as [d1|] eqn:H1; simpl in H; [|discriminate].
  assert (S1 : subseq d1 d).
  { destruct (price c) as [p|].
    - eapply filterM_subseq. exact H1.
    - inversion H1. apply subseq_refl. }
  inversion H; subst. clear H.
  eapply subseq_trans; [|exact S1].
  eapply subseq_trans.
  { destruct (review_scores_rating c); [apply subseq_filter|apply subseq_refl]. }
  eapply subseq_trans.
  { destruct (bedrooms c); [apply subseq_filter|apply subseq_refl]. }
  destruct (room_type c) as [rt|]; [|apply subseq_refl].
  destruct (is_empty rt); [apply subseq_refl|apply subseq_filter].
Qed.

(** A listing without a price makes a price filter throw. *)
Lemma filter_data_throws (c : criteria) (p : number) (d : list record) :
  price c = Some p ->
  Exists (fun r => has_field "price" r = false) d ->
  filter_data c d = TypeError.
Proof.
  intros Hc H. unfold filter_data. rewrite Hc.
  rewrite filterM_throws; [reflexivity|].
  eapply Exists_impl; [|exact H]. intros r Hr.
  unfold price_pass. unfold has_field in Hr.
  destruct (get "price" r); [discriminate|reflexivity].
Qed.

(** ** [extractPrice] never yields a negative Number *)

Lemma binary_round_aux_sign (mx ex : Z) (lx : location) :
  binary_round_aux prec emax false mx ex lx <> S754_infinity true.
Proof.
  unfold binary_round_aux.
  destruct (shr_fexp prec emax mx ex lx) as [mrs e1].
  destruct (shr_fexp prec emax _ e1 loc_Exact) as [mrs2 e2].
  destruct (shr_m mrs2); [discriminate| |discriminate].
  destruct (Z.leb e2 (Z.sub emax prec)); discriminate.
Qed.

Lemma of_decimal_sign (m : N) (e10 : Z) :
  of_decimal false m e10 <> S754_infinity true.
Proof.
  unfold of_decimal. destruct m as [|p]; [discriminate|].
  destruct (0 <=? e10).
  - unfold binary_round.
    destruct (shl_align _ 0 _) as [mz ez].
    apply binary_round_aux_sign.
  - destruct (SFdiv_core_binary prec emax (Z.pos p) 0 (10 ^ (- e10)) 0)
      as [[mz ez] lz].
    apply binary_round_aux_sign.
Qed.

Lemma unsigned_decimal_sign (s : string) :
  unsigned_decimal false s <> S754_infinity true.
Proof.
  unfold unsigned_decimal.
  destruct (prefix "Infinity" s); [discriminate|].
  destruct (span_digits s) as [ip r1].
  assert (Hplain : (if is_empty ip then NaN
                    else of_decimal false (digits_value ip) (exponent_part r1))
                   <> S754_infinity true).
  { destruct (is_empty ip); [discriminate|apply of_decimal_sign]. }
  destruct r1 as [|c r1']; [exact Hplain|].
  destruct (Ascii.eqb c ".") eqn:Hc.
  - apply Ascii.eqb_eq in Hc. subst c.
    destruct (span_digits r1') as [fp r2].
    destruct (is_empty ip && is_empty fp); [discriminate|apply of_decimal_sign].
  - destruct c as [[] [] [] [] [] [] [] []]; try exact Hplain.
    discriminate.
Qed.

Lemma price_char_plain (c : ascii) :
  price_char c = true ->
  is_ws c = false /\ c <> "-"%char /\ c <> "+"%char.
Proof.
  destruct c as [[] [] [] [] [] [] [] []]; simpl; intros H;
    try discriminate; repeat split; discriminate.
Qed.

Lemma parseFloat_unsigned (s : string) :
  all_chars price_char s = true -> parseFloat s = unsigned_decimal false s.
Proof.
  intros H. unfold parseFloat. destruct s as [|c r]; [reflexivity|].
  simpl in H. apply andb_prop in H. destruct H as [Hc _].
  apply price_char_plain in Hc. destruct Hc as [Hw [Hm Hp]].
  simpl. rewrite Hw. simpl.
  destruct c as [[] [] [] [] [] [] [] []]; try reflexivity; congruence.
Qed.

Lemma filter_chars_all (p : ascii -> bool) (s : string) :
  all_chars p (filter_chars p s) = true.
Proof.
  induction s as [|c r IH]; simpl; [reflexivity|].
  destruct (p c) eqn:Hc; simpl; [rewrite Hc|]; assumption.
Qed.

Lemma extractPrice_sign (s : string) : extractPrice s <> S754_infinity true.
Proof.
  unfold extractPrice. rewrite parseFloat_unsigned by apply filter_chars_all.
  apply unsigned_decimal_sign.
Qed.

(** Below a criterion other than [Infinity], a price is a finite Number. *)
Lemma le_finite (s : string) (p : number) :
  p <> Infinity -> le (extractPrice s) p = true ->
  is_finite (extractPrice s) = true.
Proof.
  intros Hp Hle. pose proof (extractPrice_sign s) as Hs.
  destruct (extractPrice s) as [sx|sx| |sx mx ex]; try reflexivity.
  - destruct sx; [congruence|].
    destruct p as [sp|sp| |sp mp ep]; try destruct sp; simpl in Hle;
      try discriminate. exfalso. apply Hp. reflexivity.
  - discriminate.
Qed.

(** ** The room type criterion *)

Lemma room_pass_spec (rt : string) (r : record) :
  room_pass rt r = true <-> get "room_type" r = Some rt.
Proof.
  unfold room_pass. destruct (get "room_type" r) as [s|].
  - rewrite String.eqb_eq. split; congruence.
  - split; discriminate.
Qed.

(** C4, as stated, fails: with the empty string as [room_type] the
    constraint is not applied, and a listing whose room type is not the
    empty string is kept. *)
Lemma room_type_empty_string_keeps_all :
  filter (AirBnBDataHandler [[("room_type", "Private room")]])
    {| price := None; room_type := Some ""; bedrooms := None;
       review_scores_rating := None |}
  = Ok (AirBnBDataHandler [[("room_type", "Private room")]])
  /\ get "room_type" [("room_type", "Private room")] <> Some "".
Proof. split; [reflexivity|discriminate]. Qed.

(** C4, amended: for every table and every criteria object whose
    [room_type] is a non-empty string (and no other key), [filter] keeps
    exactly the listings whose [room_type] property is that very string, in
    their order; with the empty string the constraint is not applied and
    every listing is kept. *)
Theorem filter_room_type_exact (h : handler) (rt : string) :
  rt <> "" ->
  filter h {| price := None; room_type := Some rt; bedrooms := None;
              review_scores_rating := None |}
  = Ok (AirBnBDataHandler (List.filter (room_pass rt) (data h)))
  /\ (forall r, room_pass rt r = true <-> get "room_type" r = Some rt)
  /\ filter h {| price := None; room_type := Some ""; bedrooms := None;
                 review_scores_rating := None |}
     = Ok (AirBnBDataHandler (data h)).
Proof.
  intros Hrt. split; [|split].
  - unfold filter, filter_data. simpl.
    destruct rt as [|c rt']; [congruence|]. reflexivity.
  - intros r. apply room_pass_spec.
  - reflexivity.
Qed.

Lemma filter_room_type_exact_witness :
  filter (AirBnBDataHandler
            [[("room_type", "Private room")]; [("room_type", "private room")];
             [("room_type", "Private room ")]; [("price", "$10")]])
    {| price := None; room_type := Some "Private room"; bedrooms := None;
       review_scores_rating := None |}
  = Ok (AirBnBDataHandler [[("room_type", "Private room")]]).
Proof.
  exact (proj1 (filter_room_type_exact
                  (AirBnBDataHandler
                     [[("room_type", "Private room")];
                      [("room_type", "private room")];
                      [("room_type", "Private room ")]; [("price", "$10")]])
                  "Private room" ltac:(discriminate))).
Defined.

(** ** The price criterion *)

(** C5, as stated, fails: against the criterion [Infinity] a listing whose
    price overflows to [Infinity] is kept, although its price is not a
    finite Number. *)
Lemma price_infinity_kept :
  is_finite (extractPrice huge_price) = false
  /\ filter (AirBnBDataHandler [[("price", huge_price)]])
       {| price := Some Infinity; room_type := None; bedrooms := None;
          review_scores_rating := None |}
     = Ok (AirBnBDataHandler [[("price", huge_price)]]).
Proof. split; vm_compute; reflexivity. Qed.

(** C5, amended: for every table whose listings all have a price string and
    every Number [p] as price criterion, [filter] keeps exactly the listings
    whose price, stripped to digits and '.', parses to a Number that is not
    NaN and is [<= p]; when [p] is not [Infinity] these are exactly the
    listings whose price parses to a finite Number [<= p]; a listing whose
    price parses to NaN is excluded. *)
Theorem filter_price_exact (h : handler) (p : number) :
  Forall (fun r => has_field "price" r = true) (data h) ->
  filter h {| price := Some p; room_type := None; bedrooms := None;
              review_scores_rating := None |}
  = Ok (AirBnBDataHandler (List.filter (price_kept p) (data h)))
  /\ (forall r, price_kept p r = true <->
        exists s, get "price" r = Some s
                  /\ is_nan (extractPrice s) = false
                  /\ le (extractPrice s) p = true)
  /\ (p <> Infinity ->
      forall r, price_kept p r = true <->
        exists s, get "price" r = Some s
                  /\ is_finite (extractPrice s) = true
                  /\ le (extractPrice s) p = true)
  /\ (forall r s, get "price" r = Some s ->
        is_nan (extractPrice s) = true -> price_kept p r = false).
Proof.
  intros Hall. split; [|split; [|split]].
  - unfold filter.
    rewrite filter_data_satisfies by (right; exact Hall). simpl.
    do 2 f_equal. apply filter_ext. intros r.
    unfold satisfies, price_kept, room_type_ok, bedrooms_ok, rating_ok. simpl.
    rewrite !andb_true_r. reflexivity.
  - intros r. unfold price_kept, price_ok. simpl.
    destruct (get "price" r) as [s|].
    + split.
      * intros H. exists s. repeat split; [|exact H].
        eapply le_not_nan. exact H.
      * intros [s' [Hs [_ Hle]]]. inversion Hs; subst. exact Hle.
    + split; [discriminate|]. intros [s [Hs _]]. discriminate.
  - intros Hp r. unfold price_kept, price_ok. simpl.
    destruct (get "price" r) as [s|].
    + split.
      * intros H. exists s. repeat split; [|exact H].
        apply (le_finite s p Hp H).
      * intros [s' [Hs [_ Hle]]]. inversion Hs; subst. exact Hle.
    + split; [discriminate|]. intros [s [Hs _]]. discriminate.
  - intros r s Hs Hnan. unfold price_kept, price_ok. simpl. rewrite Hs.
    apply is_nan_eq in Hnan. rewrite Hnan. apply le_nan_l.
Qed.

Lemma filter_price_exact_witness :
  filter (AirBnBDataHandler
            [[("price", "$140.00")]; [("price", "$1,040.50")];
             [("price", "N/A")]; [("price", "$99.99")]])
    {| price := Some (parseFloat "140"); room_type := None; bedrooms := None;
       review_scores_rating := None |}
  = Ok (AirBnBDataHandler [[("price", "$140.00")]; [("price", "$99.99")]]).
Proof.
  exact (proj1 (filter_price_exact
                  (AirBnBDataHandler
                     [[("price", "$140.00")]; [("price", "$1,040.50")];
                      [("price", "N/A")]; [("price", "$99.99")]])
                  (parseFloat "140")
                  ltac:(repeat constructor))).
Defined.

(** ** Composition of criteria *)

Lemma filter_no_criteria (d : list record) : filter_data no_criteria d = Ok d.
Proof. reflexivity. Qed.


Lemma satisfies_spec (c : criteria) (r : record) :
  satisfies c r = true <->
  price_ok c r = true /\ room_type_ok c r = true
  /\ bedrooms_ok c r = true /\ rating_ok c r = true.
Proof.
  unfold satisfies. rewrite !andb_true_iff. tauto.
Qed.

(** What [filter] returns is the conjunction of the constraints. *)
Lemma filter_data_conjunction (c : criteria) (d out : list record) :
  filter_data c d = Ok out -> out = List.filter (satisfies c) d.
Proof.
  intros H.
  destruct (price c) as [p|] eqn:Hc.
  - destruct (forallb (has_field "price") d) eqn:Hall.
    + rewrite forallb_forall in Hall.
      rewrite filter_data_satisfies in H.
      * inversion H. reflexivity.
      * right. apply Forall_forall. exact Hall.
    + assert (Hex : Exists (fun r => has_field "price" r = false) d).
      { clear H. induction d as [|x d IH]; simpl in Hall; [discriminate|].
        destruct (has_field "price" x) eqn:Hx.
        - apply Exists_cons_tl. apply IH. exact Hall.
        - apply Exists_cons_hd. exact Hx. }
      rewrite (filter_data_throws c p d Hc Hex) in H. discriminate.
  - rewrite filter_data_satisfies in H by (left; exact Hc).
    inversion H. reflexivity.
Qed.


(** On tables whose listings all have a price the order of the turns does
    not matter. *)
Lemma filter_data_commutes (c1 c2 : criteria) (d : list record) :
  Forall (fun r => has_field "price" r = true) d ->
  (d1 <- filter_data c1 d ;; filter_data c2 d1)
  = (d2 <- filter_data c2 d ;; filter_data c1 d2).
Proof.
  intros H.
  assert (Hf : forall q, Forall (fun r => has_field "price" r = true)
                           (List.filter q d)).
  { intros q. apply Forall_forall. intros r Hr. apply filter_In in Hr.
    rewrite Forall_forall in H. apply H. tauto. }
  rewrite (filter_data_satisfies c1 d) by (right; exact H).
  rewrite (filter_data_satisfies c2 d) by (right; exact H). simpl.
  rewrite !filter_data_satisfies by (right; apply Hf).
  rewrite !filter_filter. f_equal. apply filter_ext. intros r.
  apply andb_comm.
Qed.

(** ** [filter] on the store *)

Module HeapFacts.
Import Heap Heap_wf.

Lemma stage_init (h : heap) (a : aref) :
  (a < List.length (arrays h))%nat -> stage h (h, a) (read_array h a).
Proof.
  intros H. exists []. simpl. rewrite app_nil_r. repeat split. exact H.
Qed.

Lemma stage_filter (h : heap) (s : heap * aref) (l l' : list record)
  (p : record -> result bool) :
  stage h s l -> filterM p l = Ok l' ->
  exists s', array_filter p (snd s) (fst s) = Ok s' /\ stage h s' l'.
Proof.
  intros [ext [Ha [Hh [Hlt Hr]]]] Hp.
  unfold array_filter. rewrite Hr, Hp. simpl.
  eexists. split; [reflexivity|].
  exists (ext ++ [l'])%list. unfold alloc_array, read_array. simpl.
  rewrite Ha, app_assoc. repeat split.
  - exact Hh.
  - rewrite !length_app. simpl. lia.
  - rewrite <- Ha. rewrite app_nth2 by lia. rewrite Nat.sub_diag.
    reflexivity.
Qed.

Lemma stage_throws (h : heap) (s : heap * aref) (l : list record)
  (p : record -> result bool) :
  stage h s l -> filterM p l = TypeError ->
  array_filter p (snd s) (fst s) = TypeError.
Proof.
  intros [ext [Ha [Hh [Hlt Hr]]]] Hp.
  unfold array_filter. rewrite Hr, Hp. reflexivity.
Qed.

Lemma stage_pure (h : heap) (s : heap * aref) (l : list record)
  (q : record -> bool) :
  stage h s l ->
  exists s', array_filter (pure q) (snd s) (fst s) = Ok s'
             /\ stage h s' (List.filter q l).
Proof.
  intros H. eapply stage_filter; [exact H|]. apply filterM_pure.
Qed.

(** The method on the store computes what the function on lists
    computes, in a new array held by a new handler. *)
Lemma filter_refines (h : heap) (this : href) (c : criteria) :
  (data_ref h this < List.length (arrays h))%nat ->
  match filter_data c (contents h this) with
  | Ok out =>
      exists s, stage h s out
                /\ Heap.filter this c h = Ok (new_handler (snd s) (fst s))
  | TypeError => Heap.filter this c h = TypeError
  end.
Proof.
  intros Hwf. unfold filter_data, Heap.filter, contents.
  pose proof (stage_init h _ Hwf) as S0.
  set (d0 := read_array h (data_ref h this)) in *.
  assert (S1 : match (match price c with
                      | Some p => filterM (price_pass p) d0
                      | None => Ok d0
                      end) with
               | Ok d1 => exists s1,
                   match price c with
                   | Some p => array_filter (price_pass p) (data_ref h this) h
                   | None => Ok (h, data_ref h this)
                   end = Ok s1 /\ stage h s1 d1
               | TypeError =>
                   match price c with
                   | Some p => array_filter (price_pass p) (data_ref h this) h
                   | None => Ok (h, data_ref h this)
                   end = TypeError
               end).
  { destruct (price c) as [p|].
    - destruct (filterM (price_pass p) d0) as [d1|] eqn:Hp.
      + apply (stage_filter h (h, data_ref h this) d0 d1 _ S0 Hp).
      + apply (stage_throws h (h, data_ref h this) d0 _ S0 Hp).
    - exists (h, data_ref h this). split; [reflexivity|exact S0]. }
  destruct (match price c with
            | Some p => filterM (price_pass p) d0
            | None => Ok d0
            end) as [d1|]; simpl.
  2:{ rewrite S1. reflexivity. }
  destruct S1 as [s1 [E1 S1]]. rewrite E1. simpl. clear E1 S0.
  set (d2 := match room_type c with
             | Some rt => if is_empty rt then d1 else List.filter (room_pass rt) d1
             | None => d1
             end).
  assert (S2 : exists s2,
             match room_type c with
             | Some rt =>
                 if is_empty rt then Ok s1
                 else array_filter (pure (room_pass rt)) (snd s1) (fst s1)
             | None => Ok s1
             end = Ok s2 /\ stage h s2 d2).
  { unfold d2. destruct (room_type c) as [rt|].
    - destruct (is_empty rt).
      + exists s1. split; [reflexivity|exact S1].
      + apply stage_pure. exact S1.
    - exists s1. split; [reflexivity|exact S1]. }
  destruct S2 as [s2 [E2 S2]]. rewrite E2. simpl. clear E2 S1.
  set (d3 := match bedrooms c with
             | Some b => List.filter (bedrooms_pass b) d2
             | None => d2
             end).
  assert (S3 : exists s3,
             match bedrooms c with
             | Some b => array_filter (pure (bedrooms_pass b)) (snd s2) (fst s2)
             | None => Ok s2
             end = Ok s3 /\ stage h s3 d3).
  { unfold d3. destruct (bedrooms c) as [b|].
    - apply stage_pure. exact S2.
    - exists s2. split; [reflexivity|exact S2]. }
  destruct S3 as [s3 [E3 S3]]. rewrite E3. simpl. clear E3 S2.
  set (d4 := match review_scores_rating c with
             | Some x => List.filter (rating_pass x) d3
             | None => d3
             end).
  assert (S4 : exists s4,
             match review_scores_rating c with
             | Some x => array_filter (pure (rating_pass x)) (snd s3) (fst s3)
             | None => Ok s3
             end = Ok s4 /\ stage h s4 d4).
  { unfold d4. destruct (review_scores_rating c) as [x|].
    - apply stage_pure. exact S3.
    - exists s3. split; [reflexivity|exact S3]. }
  destruct S4 as [s4 [E4 S4]]. rewrite E4. simpl.
  exists s4. split; [exact S4|reflexivity].
Qed.

End HeapFacts.

(** C7, as stated, fails: on a table with a listing that has no price,
    [filter] with a price criterion does not return a handler, it throws. *)
Lemma filter_missing_price_throws :
  filter (AirBnBDataHandler [[("bedrooms", "2")]])
    {| price := Some (parseFloat "100"); room_type := None; bedrooms := None;
       review_scores_rating := None |}
  = TypeError
  /\ Heap.filter 0%nat
       {| price := Some (parseFloat "100"); room_type := None;
          bedrooms := None; review_scores_rating := None |}
       {| Heap.arrays := [[[("bedrooms", "2")]]]; Heap.handlers := [0%nat] |}
     = TypeError.
Proof. split; reflexivity. Qed.

(** C7, amended: for every table and every criteria object such that no
    price criterion is given or every listing has a price string, [filter]
    returns a new handler whose record sequence is what the criteria keep, a
    subsequence of the original in the original order; every handler and
    every array that existed before the call, the original's among them, is
    unchanged. *)
Theorem filter_new_handler_subsequence
  (h : Heap.heap) (this : Heap.href) (c : criteria) :
  Heap_wf.wf h ->
  (this < List.length (Heap.handlers h))%nat ->
  price c = None
  \/ Forall (fun r => has_field "price" r = true) (Heap.contents h this) ->
  exists h' that,
    Heap.filter this c h = Ok (h', that)
    /\ ~ (that < List.length (Heap.handlers h))%nat
    /\ (that < List.length (Heap.handlers h'))%nat
    /\ filter_data c (Heap.contents h this) = Ok (Heap.contents h' that)
    /\ subseq (Heap.contents h' that) (Heap.contents h this)
    /\ (forall o, (o < List.length (Heap.handlers h))%nat ->
          Heap.data_ref h' o = Heap.data_ref h o
          /\ Heap.contents h' o = Heap.contents h o)
    /\ (forall a, (a < List.length (Heap.arrays h))%nat ->
          Heap.read_array h' a = Heap.read_array h a)
    /\ Heap_wf.wf h'.
Proof.
  intros Hwf Hthis Hprice.
  assert (Hd : forall o, (o < List.length (Heap.handlers h))%nat ->
                 (Heap.data_ref h o < List.length (Heap.arrays h))%nat).
  { intros o Ho. unfold Heap_wf.wf in Hwf. rewrite Forall_forall in Hwf.
    apply Hwf. unfold Heap.data_ref. apply nth_In. exact Ho. }
  pose proof (HeapFacts.filter_refines h this c (Hd this Hthis)) as R.
  pose proof (filter_data_satisfies c (Heap.contents h this) Hprice) as E.
  rewrite E in R. destruct R as [[hs a] [[ext [Ha [Hh [Hlt Hr]]]] R]].
  simpl in Ha, Hh, Hlt, Hr.
  exists (fst (Heap.new_handler a hs)), (snd (Heap.new_handler a hs)).
  assert (Hc : Heap.contents (fst (Heap.new_handler a hs))
                 (snd (Heap.new_handler a hs))
               = List.filter (satisfies c) (Heap.contents h this)).
  { unfold Heap.contents, Heap.data_ref, Heap.new_handler. simpl.
    rewrite app_nth2 by lia. rewrite Nat.sub_diag. simpl. exact Hr. }
  assert (Hold : forall o, (o < List.length (Heap.handlers h))%nat ->
                   Heap.data_ref (fst (Heap.new_handler a hs)) o
                   = Heap.data_ref h o).
  { intros o Ho. unfold Heap.data_ref, Heap.new_handler. simpl.
    rewrite Hh. rewrite app_nth1 by exact Ho. reflexivity. }
  assert (Harr : forall x, (x < List.length (Heap.arrays h))%nat ->
                   Heap.read_array (fst (Heap.new_handler a hs)) x
                   = Heap.read_array h x).
  { intros x Hx. unfold Heap.read_array, Heap.new_handler. simpl.
    rewrite Ha. rewrite app_nth1 by exact Hx. reflexivity. }
  split; [|split; [|split; [|split; [|split; [|split; [|split]]]]]].
  - rewrite R. simpl. reflexivity.
  - simpl. rewrite Hh. lia.
  - simpl. rewrite length_app. simpl. lia.
  - rewrite E, Hc. reflexivity.
  - rewrite Hc. apply subseq_filter.
  - intros o Ho. split; [apply Hold; exact Ho|].
    unfold Heap.contents. rewrite (Hold o Ho). apply Harr. apply Hd. exact Ho.
  - exact Harr.
  - unfold Heap_wf.wf, Heap.new_handler. simpl. rewrite Hh.
    apply Forall_app. split.
    + unfold Heap_wf.wf in Hwf. eapply Forall_impl; [|exact Hwf].
      intros x Hx. simpl in Hx. rewrite Ha, length_app. lia.
    + constructor; [exact Hlt|constructor].
Qed.

Lemma filter_new_handler_subsequence_witness :
  exists h' that,
    Heap.filter 0%nat
      {| price := Some (parseFloat "100"); room_type := None;
         bedrooms := Some (parseInt "2"); review_scores_rating := None |}
      {| Heap.arrays :=
           [[[("price", "$80"); ("bedrooms", "2")];
             [("price", "$120"); ("bedrooms", "2")];
             [("price", "$90"); ("bedrooms", "1")]]];
         Heap.handlers := [0%nat] |}
    = Ok (h', that)
    /\ that = 1%nat
    /\ Heap.contents h' that = [[("price", "$80"); ("bedrooms", "2")]]
    /\ Heap.contents h' 0%nat
       = [[("price", "$80"); ("bedrooms", "2")];
          [("price", "$120"); ("bedrooms", "2")];
          [("price", "$90"); ("bedrooms", "1")]].
Proof.
  destruct (filter_new_handler_subsequence
              {| Heap.arrays :=
                   [[[("price", "$80"); ("bedrooms", "2")];
                     [("price", "$120"); ("bedrooms", "2")];
                     [("price", "$90"); ("bedrooms", "1")]]];
                 Heap.handlers := [0%nat] |}
              0%nat
              {| price := Some (parseFloat "100"); room_type := None;
                 bedrooms := Some (parseInt "2");
                 review_scores_rating := None |}
              ltac:(repeat constructor)
              ltac:(repeat constructor)
              ltac:(right; repeat constructor))
    as [h' [that [E _]]].
  exists h', that. split; [exact E|].
  vm_compute in E. inversion E; subst. repeat split.
Defined.

(** ** The filter prompt *)

Lemma is_empty_false (s : string) : s <> "" -> is_empty s = false.
Proof. destruct s; [congruence|reflexivity]. Qed.

(** C1, as stated, fails: the answer "abc" to the max price question gives
    the criterion NaN, which is not [undefined]; the constraint is applied
    and the result is empty. *)
Lemma malformed_max_price_is_applied :
  price (filterParams "abc" "" "" "") = Some NaN
  /\ price (filterParams "abc" "" "" "") <> None
  /\ shell_filter (AirBnBDataHandler [[("price", "$100")]]) "abc" "" "" ""
     = Ok (AirBnBDataHandler []).
Proof. split; [reflexivity|split; [discriminate|reflexivity]]. Qed.

(** C1, amended: for every table (whose listings all have a price string
    when a max price is answered) and every answer to the max price,
    bedrooms or rating question that is not blank but from which no number
    can be read, the shell builds a criteria object in which that criterion
    is NaN, not [undefined]; [filter] applies the constraint, which no
    listing satisfies, and returns the empty record sequence.  Only a blank
    answer leaves the criterion [undefined]. *)
Theorem malformed_answer_filters_everything
  (h : handler) (p rt b r : string) :
  p = "" \/ Forall (fun l => has_field "price" l = true) (data h) ->
  (p <> "" /\ parseFloat p = NaN)
  \/ (b <> "" /\ parseInt b = NaN)
  \/ (r <> "" /\ parseFloat r = NaN) ->
  (p <> "" -> price (filterParams p rt b r) = Some (parseFloat p))
  /\ (b <> "" -> bedrooms (filterParams p rt b r) = Some (parseInt b))
  /\ (r <> "" ->
      review_scores_rating (filterParams p rt b r) = Some (parseFloat r))
  /\ price (filterParams "" rt b r) = None
  /\ bedrooms (filterParams p rt "" r) = None
  /\ review_scores_rating (filterParams p rt b "") = None
  /\ shell_filter h p rt b r = Ok (AirBnBDataHandler []).
Proof.
  intros Hprice Hbad.
  split; [|split; [|split; [|split; [|split; [|split]]]]];
    try reflexivity.
  - intros Hp. simpl. rewrite (is_empty_false p Hp). reflexivity.
  - intros Hb. simpl. rewrite (is_empty_false b Hb). reflexivity.
  - intros Hr. simpl. rewrite (is_empty_false r Hr). reflexivity.
  - unfold shell_filter, filter.
    rewrite filter_data_satisfies.
    + simpl. do 2 f_equal. apply filter_false. intros l _.
      unfold satisfies, price_ok, bedrooms_ok, rating_ok. simpl.
      destruct Hbad as [[Hp E]|[[Hb E]|[Hr E]]].
      * rewrite (is_empty_false p Hp), E.
        destruct (get "price" l) as [s|]; [rewrite le_nan_r|]; reflexivity.
      * rewrite (is_empty_false b Hb), E.
        unfold bedrooms_pass. rewrite strict_eq_nan_r.
        rewrite andb_false_r. reflexivity.
      * rewrite (is_empty_false r Hr), E.
        unfold rating_pass, ge. rewrite le_nan_l.
        rewrite andb_false_r. reflexivity.
    + destruct Hprice as [Hp|Hall]; [left|right; exact Hall].
      subst p. reflexivity.
Qed.

Lemma malformed_answer_filters_everything_witness :
  shell_filter
    (AirBnBDataHandler
       [[("price", "$100"); ("bedrooms", "2")]; [("bedrooms", "two")]])
    "" "" "two" ""
  = Ok (AirBnBDataHandler []).
Proof.
  exact (proj2 (proj2 (proj2 (proj2 (proj2 (proj2
    (malformed_answer_filters_everything
       (AirBnBDataHandler
          [[("price", "$100"); ("bedrooms", "2")]; [("bedrooms", "two")]])
       "" "" "two" ""
       ltac:(left; reflexivity)
       ltac:(right; left; split; [discriminate|reflexivity])))))))).
Defined.

(** ** [filterByHostLocation] *)

Lemma prefix_spec (a s : string) :
  prefix a s = true <-> exists post, s = a ++ post.
Proof.
  revert s. induction a as [|c a IH]; intros s; simpl.
  - split; [intros _; exists s; reflexivity|].
    intros _. destruct s; reflexivity.
  - destruct s as [|d s]; simpl.
    + split; [discriminate|]. intros [post H]. discriminate.
    + destruct (ascii_dec c d) as [E|N].
      * subst d. rewrite IH. split.
        -- intros [post H]. exists post. rewrite H. reflexivity.
        -- intros [post H]. exists post. inversion H. reflexivity.
      * split; [discriminate|]. intros [post H]. inversion H. congruence.
Qed.

Lemma includes_unfold (s sub : string) :
  includes s sub =
  prefix sub s || match s with
                  | String _ r => includes r sub
                  | EmptyString => false
                  end.
Proof. destruct s; reflexivity. Qed.

(** [includes] decides the substring relation, character for character. *)
Lemma includes_spec (s sub : string) :
  includes s sub = true <-> exists pre post, s = pre ++ sub ++ post.
Proof.
  induction s as [|c s IH]; rewrite includes_unfold, orb_true_iff.
  - split.
    + intros [H|H]; [|discriminate].
      apply prefix_spec in H. destruct H as [post H]. exists "", post. exact H.
    + intros [pre [post H]]. left. apply prefix_spec.
      destruct pre; [|discriminate]. exists post. exact H.
  - split.
    + intros [H|H].
      * apply prefix_spec in H. destruct H as [post H]. exists "", post. exact H.
      * apply IH in H. destruct H as [pre [post H]].
        exists (String c pre), post. simpl. rewrite H. reflexivity.
    + intros [pre [post H]]. destruct pre as [|d pre].
      * left. apply prefix_spec. exists post. exact H.
      * right. apply IH. exists pre, post. inversion H. reflexivity.
Qed.

(** C9: for every table in which every listing has a [host_location],
    [filterByHostLocation(location)] keeps exactly the listings whose
    [host_location] contains [location] as a substring, character for
    character; and for every table with some listing that lacks
    [host_location], the call throws a TypeError and returns nothing. *)
Theorem filterByHostLocation_spec (h : handler) (location : string) :
  (Forall (fun r => has_field "host_location" r = true) (data h) ->
   filterByHostLocation h location
   = Ok (AirBnBDataHandler (List.filter (location_kept location) (data h))))
  /\ (forall r, location_kept location r = true <->
        exists s pre post,
          get "host_location" r = Some s /\ s = pre ++ location ++ post)
  /\ (Exists (fun r => has_field "host_location" r = false) (data h) ->
      filterByHostLocation h location = TypeError).
Proof.
  split; [|split].
  - intros Hall. unfold filterByHostLocation.
    rewrite (filterM_total _ (location_kept location)); [reflexivity|].
    eapply Forall_impl; [|exact Hall]. intros r Hr.
    apply has_field_get in Hr. destruct Hr as [s Hs].
    unfold location_pass, location_kept. rewrite Hs. reflexivity.
  - intros r. unfold location_kept.
    destruct (get "host_location" r) as [s|].
    + rewrite includes_spec. split.
      * intros [pre [post H]]. exists s, pre, post. split; [reflexivity|exact H].
      * intros [s' [pre [post [Hs H]]]]. inversion Hs; subst.
        exists pre, post. reflexivity.
    + split; [discriminate|]. intros [s [pre [post [Hs _]]]]. discriminate.
  - intros Hex. unfold filterByHostLocation.
    rewrite filterM_throws; [reflexivity|].
    eapply Exists_impl; [|exact Hex]. intros r Hr.
    unfold location_pass. unfold has_field in Hr.
    destruct (get "host_location" r); [discriminate|reflexivity].
Qed.

Lemma filterByHostLocation_spec_witness :
  filterByHostLocation
    (AirBnBDataHandler
       [[("host_location", "Paris, France")]; [("host_location", "paris")]])
    "Paris"
  = Ok (AirBnBDataHandler [[("host_location", "Paris, France")]])
  /\ filterByHostLocation
       (AirBnBDataHandler
          [[("host_location", "Paris, France")]; [("host_id", "7")]])
       "Paris"
     = TypeError.
Proof.
  split.
  - exact (proj1 (filterByHostLocation_spec
                    (AirBnBDataHandler
                       [[("host_location", "Paris, France")];
                        [("host_location", "paris")]]) "Paris")
             ltac:(repeat constructor)).
  - exact (proj2 (proj2 (filterByHostLocation_spec
                           (AirBnBDataHandler
                              [[("host_location", "Paris, France")];
                               [("host_id", "7")]]) "Paris"))
             ltac:(apply Exists_cons_tl; apply Exists_cons_hd; reflexivity)).
Defined.

(** ** Property names made of Numbers *)

Lemma same_key_spec (x y : number) :
  same_key x y = true <-> key_norm x = key_norm y.
Proof.
  unfold same_key, SFeqb.
  destruct x as [sx|sx| |sx mx ex], y as [sy|sy| |sy my ey]; simpl;
    try destruct sx; try destruct sy; simpl;
    try (split; [discriminate|intros H; discriminate H]);
    try (split; reflexivity);
    rewrite orb_false_r;
    change (PosDef.Pos.compare_cont Eq mx my) with (Pos.compare mx my);
    destruct (Z.compare_spec ex ey) as [E|L|G];
    try (split; [discriminate|intros H; inversion H; lia]);
    subst ey;
    destruct (Pos.compare_spec mx my) as [E|L|G]; simpl;
    try (split; [discriminate|intros H; inversion H; lia]);
    subst my; split; reflexivity.
Qed.

Lemma same_key_refl (x : number) : same_key x x = true.
Proof. apply same_key_spec. reflexivity. Qed.

Lemma same_key_false (x y : number) :
  same_key x y = false -> key_norm x <> key_norm y.
Proof.
  intros H E. apply same_key_spec in E. congruence.
Qed.

Lemma same_key_true (x y : number) :
  same_key x y = true -> key_norm x = key_norm y.
Proof. apply same_key_spec. Qed.

(** Decides the three comparisons of a goal and closes it by equational
    reasoning on the canonical keys. *)
Ltac keys :=
  repeat match goal with
         | |- context [same_key ?a ?b] =>
             let E := fresh "E" in
             destruct (same_key a b) eqn:E;
             [apply same_key_true in E|apply same_key_false in E]
         | H : context [same_key ?a ?b] |- _ =>
             let E := fresh "E" in
             destruct (same_key a b) eqn:E;
             [apply same_key_true in E|apply same_key_false in E]
         end;
  simpl in *; try congruence.

Lemma bucket_get_same (k1 k2 : number) (acc : buckets) :
  same_key k1 k2 = true -> bucket_get k1 acc = bucket_get k2 acc.
Proof.
  intros H. apply same_key_true in H.
  induction acc as [|[k b] acc IH]; simpl; [reflexivity|].
  keys.
Qed.

Lemma bucket_get_app (k kx : number) (b0 : Bucket.t) (acc : buckets) :
  bucket_get k (acc ++ [(kx, b0)])%list =
  match bucket_get k acc with
  | Some b => Some b
  | None => if same_key kx k then Some b0 else None
  end.
Proof.
  induction acc as [|[k' b] acc IH]; simpl; [reflexivity|].
  destruct (same_key k' k); [reflexivity|exact IH].
Qed.

Lemma bucket_get_update (k kx : number) (f : Bucket.t -> Bucket.t)
  (acc : buckets) :
  bucket_get k (bucket_update kx f acc) =
  if same_key kx k then option_map f (bucket_get k acc) else bucket_get k acc.
Proof.
  induction acc as [|[k' b] acc IH]; simpl.
  - destruct (same_key kx k); reflexivity.
  - destruct (same_key k' kx) eqn:E1; simpl.
    + apply same_key_true in E1. keys.
    + apply same_key_false in E1. rewrite IH. keys.
Qed.

(** ** [computeStats]: the accumulation *)

Lemma price_skipped_step (acc : buckets) (x : record) :
  price_skipped x = true -> stats_step acc x = acc.
Proof.
  unfold price_skipped, stats_step.
  destruct (get "price" x) as [p|]; [|reflexivity].
  intros H. rewrite H. reflexivity.
Qed.

(** What a step does to the bucket of any key. *)
Lemma bucket_get_step (k : number) (acc : buckets) (x : record) :
  bucket_get k (stats_step acc x) =
  if contributes k x then Some (bump x (bucket_or_new (bucket_get k acc)))
  else bucket_get k acc.
Proof.
  unfold contributes.
  destruct (price_skipped x) eqn:Hs; simpl.
  - rewrite price_skipped_step by exact Hs. reflexivity.
  - unfold stats_step, bump, priceValue. unfold price_skipped in Hs.
    destruct (get "price" x) as [p|]; [|discriminate]. rewrite Hs.
    rewrite bucket_get_update.
    destruct (same_key (bedCount x) k) eqn:Hk.
    + rewrite <- (bucket_get_same (bedCount x) k) by exact Hk.
      rewrite <- (bucket_get_same (bedCount x) k acc) by exact Hk.
      destruct (bucket_get (bedCount x) acc) as [b|] eqn:Hb.
      * rewrite Hb. reflexivity.
      * rewrite bucket_get_app, Hb, same_key_refl. reflexivity.
    + destruct (bucket_get (bedCount x) acc) as [b|]; [reflexivity|].
      rewrite bucket_get_app, Hk.
      destruct (bucket_get k acc); reflexivity.
Qed.

Lemma bucket_get_fold (k : number) (d : list record) (acc : buckets) :
  bucket_get k (fold_left stats_step d acc) =
  fold_left (fun ob x => if contributes k x
                         then Some (bump x (bucket_or_new ob)) else ob)
    d (bucket_get k acc).
Proof.
  revert acc. induction d as [|x d IH]; intros acc; simpl; [reflexivity|].
  rewrite IH, bucket_get_step. reflexivity.
Qed.

(** The bucket of key [k] after the reduction: the sum, from 0 and in table
    order, of the prices of the listings that contribute to it, and their
    number; no bucket when no listing contributes. *)
Lemma bucket_get_accumulate (k : number) (d : list record) :
  bucket_get k (accumulate d) =
  match List.filter (contributes k) d with
  | [] => None
  | cs => Some (Bucket.make (fold_left add (List.map priceValue cs) zero)
                            (List.length cs))
  end.
Proof.
  unfold accumulate. rewrite bucket_get_fold. simpl.
  assert (G : forall ob,
             fold_left (fun ob x => if contributes k x
                                    then Some (bump x (bucket_or_new ob)) else ob)
               d ob =
             match List.filter (contributes k) d with
             | [] => ob
             | cs => Some (Bucket.make
                             (fold_left add (List.map priceValue cs)
                                (Bucket.sum (bucket_or_new ob)))
                             (List.length cs + Bucket.count (bucket_or_new ob)))
             end).
  { induction d as [|x d IH]; intros ob; simpl; [reflexivity|].
    destruct (contributes k x); simpl.
    - rewrite IH. destruct (List.filter (contributes k) d) as [|y cs]; simpl.
      + reflexivity.
      + f_equal. f_equal. lia.
    - apply IH. }
  rewrite G. destruct (List.filter (contributes k) d); simpl; [reflexivity|].
  do 2 f_equal. lia.
Qed.

Lemma avg_get_map (k : number) (acc : buckets) :
  avg_get k (List.map (fun kb => (fst kb, average (snd kb))) acc)
  = option_map average (bucket_get k acc).
Proof.
  induction acc as [|[k' b] acc IH]; simpl; [reflexivity|].
  destruct (same_key k' k); [reflexivity|exact IH].
Qed.

Lemma fold_add_nan (l : list number) : fold_left add l NaN = NaN.
Proof. induction l as [|x l IH]; simpl; [reflexivity|exact IH]. Qed.

Lemma fold_add_with_nan (l : list number) (a : number) :
  In NaN l -> fold_left add l a = NaN.
Proof.
  revert a. induction l as [|x l IH]; intros a H; simpl; [contradiction|].
  destruct H as [H|H].
  - subst x. rewrite add_nan_r. apply fold_add_nan.
  - apply IH. exact H.
Qed.

(** ** Blank prices *)

Lemma all_chars_rev_onto (p : ascii -> bool) (s acc : string) :
  all_chars p (rev_string_onto s acc) = all_chars p s && all_chars p acc.
Proof.
  revert acc. induction s as [|c s IH]; intros acc; simpl; [reflexivity|].
  rewrite IH. simpl. destruct (p c), (all_chars p s); reflexivity.
Qed.

Lemma all_chars_rev (p : ascii -> bool) (s : string) :
  all_chars p (rev_string s) = all_chars p s.
Proof.
  unfold rev_string. rewrite all_chars_rev_onto. simpl.
  apply andb_true_r.
Qed.

Lemma rev_onto_nonempty (t : string) (a : ascii) (b : string) :
  is_empty (rev_string_onto t (String a b)) = false.
Proof.
  revert a b. induction t as [|d t IH]; intros a b; simpl;
    [reflexivity|apply IH].
Qed.

Lemma rev_string_empty (s : string) : is_empty (rev_string s) = is_empty s.
Proof.
  unfold rev_string. destruct s as [|c s]; [reflexivity|]. simpl.
  apply rev_onto_nonempty.
Qed.

Lemma skip_ws_empty (s : string) : is_empty (skip_ws s) = all_chars is_ws s.
Proof.
  induction s as [|c s IH]; simpl; [reflexivity|].
  destruct (is_ws c); simpl; [exact IH|reflexivity].
Qed.

Lemma all_ws_skip_ws (s : string) :
  all_chars is_ws (skip_ws s) = all_chars is_ws s.
Proof.
  induction s as [|c s IH]; simpl; [reflexivity|].
  destruct (is_ws c) eqn:Hc; simpl; [exact IH|].
  rewrite Hc. reflexivity.
Qed.

(** [trim] yields the empty string exactly on strings of white space. *)
Lemma trim_empty (s : string) : is_empty (trim s) = all_chars is_ws s.
Proof.
  unfold trim.
  rewrite rev_string_empty, skip_ws_empty, all_chars_rev.
  apply all_ws_skip_ws.
Qed.

Lemma price_skipped_spec (r : record) :
  price_skipped r = true <->
  get "price" r = None
  \/ exists p, get "price" r = Some p /\ all_chars is_ws p = true.
Proof.
  unfold price_skipped. destruct (get "price" r) as [p|].
  - rewrite trim_empty. split.
    + intros H. right. exists p. split; [reflexivity|].
      apply orb_prop in H. destruct H as [H|H]; [|exact H].
      destruct p; [reflexivity|discriminate].
    + intros [H|[q [Hq H]]]; [discriminate|].
      inversion Hq; subst. rewrite H. apply orb_true_r.
  - split; [intros _; left; reflexivity|reflexivity].
Qed.

(** C8: for every table, [computeStats] returns as [count] the number of
    listings of the table, and a listing whose price is missing, empty or
    made of white space only is left out of the accumulation: with or
    without it the buckets (sums and counts) and the averages are the same,
    while the top-level [count] counts it. *)
Theorem computeStats_blank_price_excluded
  (d1 d2 : list record) (r : record) :
  get "price" r = None
  \/ (exists p, get "price" r = Some p /\ all_chars is_ws p = true) ->
  (forall h, count (computeStats h) = List.length (data h))
  /\ count (computeStats (AirBnBDataHandler (d1 ++ r :: d2)))
     = S (count (computeStats (AirBnBDataHandler (d1 ++ d2))))
  /\ accumulate (d1 ++ r :: d2) = accumulate (d1 ++ d2)
  /\ avgPricePerBedroom (computeStats (AirBnBDataHandler (d1 ++ r :: d2)))
     = avgPricePerBedroom (computeStats (AirBnBDataHandler (d1 ++ d2)))
  /\ (forall k, contributes k r = false).
Proof.
  intros H. apply price_skipped_spec in H.
  assert (E : accumulate (d1 ++ r :: d2) = accumulate (d1 ++ d2)).
  { unfold accumulate. rewrite !fold_left_app. simpl.
    rewrite price_skipped_step by exact H. reflexivity. }
  split; [reflexivity|split; [|split; [exact E|split]]].
  - simpl. rewrite !length_app. simpl. lia.
  - unfold computeStats. simpl. rewrite E. reflexivity.
  - intros k. unfold contributes. rewrite H. reflexivity.
Qed.

Lemma computeStats_blank_price_excluded_witness :
  count (computeStats
           (AirBnBDataHandler
              [[("price", "$100"); ("bedrooms", "1")];
               [("price", "   "); ("bedrooms", "1")]])) = 2%nat
  /\ avgPricePerBedroom
       (computeStats
          (AirBnBDataHandler
             [[("price", "$100"); ("bedrooms", "1")];
              [("price", "   "); ("bedrooms", "1")]]))
     = [(parseInt "1", parseFloat "100")].
Proof.
  pose proof (computeStats_blank_price_excluded
                [[("price", "$100"); ("bedrooms", "1")]] []
                [("price", "   "); ("bedrooms", "1")]
                ltac:(right; exists "   "; split; reflexivity))
    as [H1 [_ [_ [H4 _]]]].
  split.
  - exact (H1 _).
  - etransitivity; [exact H4|]. vm_compute. reflexivity.
Defined.

(** ** Prices without a digit *)

Lemma no_digit_dots (p : string) :
  all_chars (fun c => negb (is_digit c)) p = true ->
  all_chars (fun c => (N_of_ascii c =? 46)%N) (filter_chars price_char p) = true.
Proof.
  induction p as [|c p IH]; simpl; [reflexivity|].
  intros H. apply andb_prop in H. destruct H as [Hc Hp].
  unfold price_char at 1. apply negb_true_iff in Hc. rewrite Hc. simpl.
  destruct (N_of_ascii c =? 46)%N eqn:Hd; simpl.
  - rewrite Hd. simpl. apply IH. exact Hp.
  - apply IH. exact Hp.
Qed.

Lemma dot_char (c : ascii) : (N_of_ascii c =? 46)%N = true -> c = "."%char.
Proof.
  destruct c as [[] [] [] [] [] [] [] []]; simpl; intros H;
    try discriminate; reflexivity.
Qed.

Lemma parseFloat_dots (s : string) :
  all_chars (fun c => (N_of_ascii c =? 46)%N) s = true -> parseFloat s = NaN.
Proof.
  destruct s as [|c s]; [reflexivity|]. simpl. intros H.
  apply andb_prop in H. destruct H as [Hc Hs].
  apply dot_char in Hc. subst c.
  destruct s as [|c s]; [reflexivity|]. simpl in Hs.
  apply andb_prop in Hs. destruct Hs as [Hc _].
  apply dot_char in Hc. subst c. reflexivity.
Qed.

(** A price without any digit parses to NaN. *)
Lemma extractPrice_no_digit (p : string) :
  all_chars (fun c => negb (is_digit c)) p = true -> extractPrice p = NaN.
Proof.
  intros H. unfold extractPrice. apply parseFloat_dots. apply no_digit_dots.
  exact H.
Qed.

Lemma average_nan (b : Bucket.t) :
  Bucket.sum b = NaN -> (1 <= Bucket.count b)%nat -> average b = NaN.
Proof.
  intros Hs Hc. unfold average. rewrite Hs.
  destruct (Bucket.count b) as [|n]; [lia|]. reflexivity.
Qed.

(** C10: for every table with a listing whose price is not empty after
    trimming and has no digit, [computeStats] does not leave that listing
    out: it is accumulated into the bucket of its bedroom count with the
    price NaN, the count of that bucket includes it, and the average
    reported for that bucket is NaN, not a finite Number. *)
Theorem computeStats_unparsable_price_counted
  (d : list record) (r : record) (p : string) :
  In r d ->
  get "price" r = Some p ->
  is_empty (trim p) = false ->
  all_chars (fun c => negb (is_digit c)) p = true ->
  price_skipped r = false
  /\ priceValue r = NaN
  /\ exists b,
       bucket_get (bedCount r) (accumulate d) = Some b
       /\ Bucket.sum b = NaN
       /\ Bucket.count b
          = List.length (List.filter (contributes (bedCount r)) d)
       /\ In r (List.filter (contributes (bedCount r)) d)
       /\ (1 <= Bucket.count b)%nat
       /\ avg_get (bedCount r)
            (avgPricePerBedroom (computeStats (AirBnBDataHandler d)))
          = Some NaN
       /\ is_finite NaN = false.
Proof.
  intros Hin Hp Htrim Hnodigit.
  assert (Hs : price_skipped r = false).
  { unfold price_skipped. rewrite Hp, Htrim.
    destruct p; [discriminate Htrim|reflexivity]. }
  assert (Hv : priceValue r = NaN).
  { unfold priceValue. rewrite Hp. apply extractPrice_no_digit.
    exact Hnodigit. }
  assert (Hc : In r (List.filter (contributes (bedCount r)) d)).
  { apply filter_In. split; [exact Hin|].
    unfold contributes. rewrite Hs, same_key_refl. reflexivity. }
  split; [exact Hs|split; [exact Hv|]].
  pose proof (bucket_get_accumulate (bedCount r) d) as Hb.
  destruct (List.filter (contributes (bedCount r)) d) as [|y cs] eqn:Hcs;
    [contradiction|].
  eexists. split; [exact Hb|]. simpl.
  assert (Hsum : fold_left add (List.map priceValue cs)
                   (add zero (priceValue y)) = NaN).
  { destruct Hc as [Hc|Hc].
    - subst y. rewrite Hv. rewrite add_nan_r. apply fold_add_nan.
    - apply fold_add_with_nan. rewrite <- Hv. apply in_map. exact Hc. }
  split; [exact Hsum|].
  split; [reflexivity|].
  split; [exact Hc|].
  split; [lia|].
  split; [|reflexivity].
  unfold computeStats.
  cbn [avgPricePerBedroom data]. rewrite avg_get_map, Hb.
  cbn [option_map]. f_equal. apply average_nan.
  - exact Hsum.
  - simpl. lia.
Qed.

Lemma computeStats_unparsable_price_counted_witness :
  avg_get (parseInt "1")
    (avgPricePerBedroom
       (computeStats
          (AirBnBDataHandler
             [[("price", "$100"); ("bedrooms", "1")];
              [("price", "N/A"); ("bedrooms", "1")]])))
  = Some NaN.
Proof.
  destruct (computeStats_unparsable_price_counted
              [[("price", "$100"); ("bedrooms", "1")];
               [("price", "N/A"); ("bedrooms", "1")]]
              [("price", "N/A"); ("bedrooms", "1")] "N/A"
              ltac:(right; left; reflexivity)
              ltac:(reflexivity) ltac:(reflexivity) ltac:(reflexivity))
    as [_ [_ [b [_ [_ [_ [_ [_ [H _]]]]]]]]].
  exact H.
Defined.

(** ** Stable sorting *)

Section StableSortFacts.
Context {A : Type} (before : A -> A -> bool).
Hypothesis before_asym : forall a b, before a b = true -> before b a = false.
Hypothesis before_negtrans :
  forall a b c, before a b = false -> before b c = false -> before a c = false.

(** [a] may stand in front of [b]. *)
Let ordered (a b : A) : Prop := before b a = false.

Lemma insert_by_perm (x : A) (l : list A) :
  Permutation (x :: l) (insert_by before x l).
Proof.
  induction l as [|y l IH]; simpl; [apply Permutation_refl|].
  destruct (before y x); [|apply Permutation_refl].
  eapply perm_trans; [apply perm_swap|]. apply perm_skip. exact IH.
Qed.

Lemma stable_sort_perm (l : list A) : Permutation l (stable_sort before l).
Proof.
  induction l as [|x l IH]; simpl; [apply perm_nil|].
  eapply perm_trans; [apply perm_skip; exact IH|]. apply insert_by_perm.
Qed.

Lemma insert_by_Forall (P : A -> Prop) (x : A) (l : list A) :
  P x -> Forall P l -> Forall P (insert_by before x l).
Proof.
  intros Hx Hl.
  eapply Permutation_Forall; [apply insert_by_perm|].
  constructor; assumption.
Qed.

Lemma insert_by_sorted (x : A) (l : list A) :
  StronglySorted ordered l -> StronglySorted ordered (insert_by before x l).
Proof.
  induction 1 as [|y l Hl IH Hy]; simpl.
  - constructor; constructor.
  - destruct (before y x) eqn:Hyx.
    + constructor; [exact IH|].
      apply insert_by_Forall; [|exact Hy].
      unfold ordered. apply before_asym. exact Hyx.
    + constructor; [constructor; assumption|].
      constructor; [exact Hyx|].
      eapply Forall_impl; [|exact Hy]. intros z Hz. unfold ordered in *.
      eapply before_negtrans; [exact Hz|exact Hyx].
Qed.

Lemma stable_sort_sorted (l : list A) :
  StronglySorted ordered (stable_sort before l).
Proof.
  induction l as [|x l IH]; simpl; [constructor|].
  apply insert_by_sorted. exact IH.
Qed.

(** Elements that the comparator does not separate keep their order. *)
Lemma insert_by_stable (P : A -> bool) (x : A) (l : list A) :
  (forall a b, P a = true -> P b = true -> before a b = false) ->
  List.filter P (insert_by before x l)
  = if P x then x :: List.filter P l else List.filter P l.
Proof.
  intros HP. induction l as [|y l IH]; simpl; [reflexivity|].
  destruct (before y x) eqn:Hyx; simpl; [|reflexivity].
  rewrite IH. destruct (P y) eqn:Hy; [|reflexivity].
  destruct (P x) eqn:Hx; [|reflexivity].
  rewrite (HP y x Hy Hx) in Hyx. discriminate.
Qed.

Lemma stable_sort_stable (P : A -> bool) (l : list A) :
  (forall a b, P a = true -> P b = true -> before a b = false) ->
  List.filter P (stable_sort before l) = List.filter P l.
Proof.
  intros HP. induction l as [|x l IH]; simpl; [reflexivity|].
  rewrite insert_by_stable by exact HP. rewrite IH. reflexivity.
Qed.
End StableSortFacts.

Lemma stable_sort_map {A B : Type} (f : A -> B) (before : B -> B -> bool)
  (l : list A) :
  List.map f (stable_sort (fun a b => before (f a) (f b)) l)
  = stable_sort before (List.map f l).
Proof.
  induction l as [|x l IH]; simpl; [reflexivity|].
  rewrite <- IH. generalize (stable_sort (fun a b => before (f a) (f b)) l).
  intros m. induction m as [|y m IHm]; simpl; [reflexivity|].
  destruct (before (f y) (f x)); simpl; [rewrite IHm|]; reflexivity.
Qed.

(** ** [computeListingsPerHost]: the grouping *)

Lemma counts_get_mem (k : string) (o : counts) :
  counts_get k o = None <-> mem k (List.map fst o) = false.
Proof.
  induction o as [|[k' v] o IH]; simpl; [tauto|].
  rewrite (String.eqb_sym k k').
  destruct (String.eqb k' k); simpl; [split; discriminate|exact IH].
Qed.

Lemma counts_get_set (k k' : string) (v : nat) (o : counts) :
  counts_get k' (counts_set k v o) =
  if String.eqb k k' then Some v else counts_get k' o.
Proof.
  induction o as [|[k0 v0] o IH]; simpl.
  - reflexivity.
  - destruct (String.eqb_spec k0 k) as [E|N]; simpl.
    + subst k0. destruct (String.eqb k k'); reflexivity.
    + rewrite IH. destruct (String.eqb_spec k0 k') as [E'|N'].
      * subst k0. destruct (String.eqb_spec k k'); [congruence|reflexivity].
      * reflexivity.
Qed.

Lemma counts_set_keys (k : string) (v : nat) (o : counts) :
  List.map fst (counts_set k v o) =
  if mem k (List.map fst o) then List.map fst o
  else (List.map fst o ++ [k])%list.
Proof.
  induction o as [|[k0 v0] o IH]; simpl; [reflexivity|].
  rewrite (String.eqb_sym k k0).
  destruct (String.eqb k0 k); simpl; [reflexivity|].
  rewrite IH. unfold mem. destruct (existsb (String.eqb k) (List.map fst o));
    reflexivity.
Qed.

(** The count of a host after the reduction is its number of listings. *)
Lemma counts_get_fold (k : string) (d : list record) (acc : counts) :
  counts_get k (fold_left host_step d acc) =
  match count_occ string_dec (List.map hostKey d) k with
  | O => counts_get k acc
  | n => Some (match counts_get k acc with Some m => m | None => O end + n)%nat
  end.
Proof.
  revert acc. induction d as [|x d IH]; intros acc; simpl; [reflexivity|].
  rewrite IH. unfold host_step. rewrite counts_get_set.
  destruct (string_dec (hostKey x) k) as [E|N].
  - subst k. rewrite String.eqb_refl.
    destruct (count_occ string_dec (List.map hostKey d) (hostKey x));
      f_equal; lia.
  - destruct (String.eqb_spec (hostKey x) k); [congruence|]. reflexivity.
Qed.

Lemma counts_get_hostListings (k : string) (d : list record) :
  counts_get k (hostListings d) =
  match count_occ string_dec (List.map hostKey d) k with
  | O => None
  | n => Some n
  end.
Proof.
  unfold hostListings. rewrite counts_get_fold. simpl. reflexivity.
Qed.

Lemma mem_app (k : string) (l1 l2 : list string) :
  mem k (l1 ++ l2) = mem k l1 || mem k l2.
Proof. unfold mem. apply existsb_app. Qed.

(** The properties of the count object are created in the order in which
    the hosts first appear. *)
Lemma keys_fold (d : list record) (acc : counts) :
  List.map fst (fold_left host_step d acc) =
  (List.map fst acc
   ++ List.filter (fun k => negb (mem k (List.map fst acc)))
        (first_seen (List.map hostKey d)))%list.
Proof.
  revert acc. induction d as [|x d IH]; intros acc; simpl.
  - rewrite app_nil_r. reflexivity.
  - rewrite IH. unfold host_step. rewrite counts_set_keys.
    destruct (mem (hostKey x) (List.map fst acc)) eqn:Hm; simpl.
    + f_equal. rewrite filter_filter. apply filter_ext. intros y.
      destruct (String.eqb_spec y (hostKey x)) as [E|N]; simpl.
      * subst y. rewrite Hm. reflexivity.
      * reflexivity.
    + rewrite <- app_assoc. simpl. do 2 f_equal.
      rewrite filter_filter. apply filter_ext. intros y.
      rewrite mem_app. simpl. rewrite orb_false_r, negb_orb.
      apply andb_comm.
Qed.

Lemma keys_hostListings (d : list record) :
  List.map fst (hostListings d) = first_seen (List.map hostKey d).
Proof.
  unfold hostListings. rewrite keys_fold. simpl. apply filter_true.
Qed.

Lemma NoDup_filter {A : Type} (p : A -> bool) (l : list A) :
  NoDup l -> NoDup (List.filter p l).
Proof.
  induction 1 as [|x l Hx Hl IH]; simpl; [constructor|].
  destruct (p x); [|exact IH].
  constructor; [|exact IH]. intros H. apply filter_In in H. tauto.
Qed.

Lemma NoDup_first_seen (l : list string) : NoDup (first_seen l).
Proof.
  induction l as [|x l IH]; simpl; constructor.
  - intros H. apply filter_In in H. destruct H as [_ H].
    rewrite String.eqb_refl in H. discriminate.
  - apply NoDup_filter. exact IH.
Qed.

Lemma counts_get_In (k : string) (n : nat) (o : counts) :
  NoDup (List.map fst o) -> (In (k, n) o <-> counts_get k o = Some n).
Proof.
  induction o as [|[k' v] o IH]; simpl; intros Hnd.
  - split; [contradiction|discriminate].
  - inversion Hnd as [|? ? Hk Ho]; subst.
    destruct (String.eqb_spec k' k) as [E|N].
    + subst k'. split.
      * intros [H|H]; [congruence|].
        exfalso. apply Hk. apply (in_map fst) in H. exact H.
      * intros H. left. congruence.
    + rewrite <- (IH Ho). split.
      * intros [H|H]; [congruence|exact H].
      * intros H. right. exact H.
Qed.

Lemma map_fst_filter {V : Type} (p : string -> bool) (o : list (string * V)) :
  List.map fst (List.filter (fun e => p (fst e)) o)
  = List.filter p (List.map fst o).
Proof.
  induction o as [|[k v] o IH]; simpl; [reflexivity|].
  destruct (p k); simpl; rewrite IH; reflexivity.
Qed.

(** [Object.entries] lists the names in property order. *)
Lemma entries_keys {V : Type} (o : list (string * V)) :
  List.map fst (entries o) =
  (stable_sort (fun a b => (index_of a <? index_of b)%N)
     (List.filter is_index (List.map fst o))
   ++ List.filter (fun k => negb (is_index k)) (List.map fst o))%list.
Proof.
  unfold entries. rewrite map_app. f_equal.
  - rewrite (stable_sort_map fst (fun a b => (index_of a <? index_of b)%N)).
    rewrite (map_fst_filter is_index). reflexivity.
  - apply (map_fst_filter (fun k => negb (is_index k))).
Qed.

Lemma entries_perm {V : Type} (o : list (string * V)) :
  Permutation o (entries o).
Proof.
  unfold entries.
  eapply perm_trans; [|apply Permutation_app_tail; apply stable_sort_perm].
  induction o as [|e o IH]; simpl; [apply perm_nil|].
  destruct (is_index (fst e)); simpl.
  - apply perm_skip. exact IH.
  - eapply perm_trans; [apply perm_skip; exact IH|].
    apply Permutation_middle.
Qed.

Lemma map_fst_filter_snd (g : string -> nat) (n : nat) (l : list (string * nat)) :
  (forall e, In e l -> snd e = g (fst e)) ->
  List.map fst (List.filter (fun e => (snd e =? n)%nat) l)
  = List.filter (fun k => (g k =? n)%nat) (List.map fst l).
Proof.
  induction l as [|[k v] l IH]; simpl; intros H; [reflexivity|].
  pose proof (H (k, v) (or_introl eq_refl)) as E. simpl in E.
  rewrite <- E.
  destruct (v =? n)%nat; simpl; rewrite IH; try reflexivity;
    intros e He; apply H; right; exact He.
Qed.

(** ** The grouping object and what it inherits *)

Lemma tally_get_counts (k : string) (o : counts) :
  tally_get k (List.map (fun e => (fst e, Count (snd e))) o)
  = option_map Count (counts_get k o).
Proof.
  induction o as [|[k' v] o IH]; simpl; [reflexivity|].
  destruct (String.eqb k' k); [reflexivity|exact IH].
Qed.

Lemma tally_set_counts (k : string) (v : nat) (o : counts) :
  tally_set k (Count v) (List.map (fun e => (fst e, Count (snd e))) o)
  = List.map (fun e => (fst e, Count (snd e))) (counts_set k v o).
Proof.
  induction o as [|[k' v'] o IH]; simpl; [reflexivity|].
  destruct (String.eqb k' k); simpl; [reflexivity|]. rewrite IH. reflexivity.
Qed.

Lemma plain_not_proto (k : string) :
  inherited_name k = false -> String.eqb k "__proto__" = false.
Proof.
  unfold inherited_name. simpl. intros H.
  apply orb_false_elim in H. tauto.
Qed.

(** On a table whose host ids find nothing inherited, the object of the
    reduction holds the counts of [hostListings] and nothing else. *)
Lemma grouping_plain (d : list record) :
  plain_hosts d ->
  grouping d = List.map (fun e => (fst e, Count (snd e))) (hostListings d).
Proof.
  unfold grouping, hostListings.
  change (@nil (string * tally))
    with (List.map (fun e : string * nat => (fst e, Count (snd e))) []).
  generalize (@nil (string * nat)).
  induction d as [|x d IH]; intros acc Hp; simpl; [reflexivity|].
  inversion Hp as [|? ? Hx Hd]; subst.
  rewrite <- (IH _ Hd). f_equal.
  unfold group_step, host_step.
  rewrite (plain_not_proto _ Hx), tally_get_counts, Hx.
  destruct (counts_get (hostKey x) acc) as [n|]; simpl;
    apply tally_set_counts.
Qed.

(** A listing of the host "__proto__" adds no property; a listing of a host
    named like an inherited function stores a text, not a count. *)
Lemma grouping_inherited :
  grouping [[("host_id", "7")]; [("host_id", "__proto__")]] = [("7", Count 1)]
  /\ grouping [[("host_id", "constructor")]; [("host_id", "constructor")]]
     = [("constructor", Text)].
Proof. split; reflexivity. Qed.

(** C2, as stated, fails: two hosts with one listing each, whose ids are
    numeric strings, are ranked in ascending numeric order of the ids, not
    in the order in which they first appear in the table. *)
Lemma numeric_host_ids_not_in_first_appearance_order :
  computeListingsPerHost
    (AirBnBDataHandler [[("host_id", "20")]; [("host_id", "10")]])
  = [("10", 1%nat); ("20", 1%nat)].
Proof. reflexivity. Qed.

(** C2, amended: for every table whose host ids name no member of
    [Object.prototype], the grouping object holds counts only and
    [computeListingsPerHost] returns its (host_id, count) pairs, one per
    host and with the number of listings of that host, sorted descending by
    count; hosts with equal counts appear
    in the property order of the grouping object: first the host ids that
    are array indices (canonical decimal integers below 2^32 - 1) in
    ascending numeric order, then the other host ids in the order of their
    first appearance in the record sequence. *)
Theorem computeListingsPerHost_ranking (h : handler) :
  plain_hosts (data h) ->
  let keys := List.map hostKey (data h) in
  let occ := count_occ string_dec keys in
  let ranking := computeListingsPerHost h in
  grouping (data h)
  = List.map (fun e => (fst e, Count (snd e))) (hostListings (data h))
  /\ Permutation (hostListings (data h)) ranking
  /\ StronglySorted (fun a b => (snd b <= snd a)%nat) ranking
  /\ NoDup (List.map fst ranking)
  /\ (forall k n, In (k, n) ranking <-> n = occ k /\ (0 < n)%nat)
  /\ (forall n,
        List.map fst (List.filter (fun e => (snd e =? n)%nat) ranking)
        = List.filter (fun k => (occ k =? n)%nat) (property_order keys))
  /\ (exists indices,
        property_order keys
        = (indices ++ List.filter (fun k => negb (is_index k)) (first_seen keys))%list
        /\ Permutation indices (List.filter is_index (first_seen keys))
        /\ StronglySorted (fun a b => (index_of a <= index_of b)%N) indices).
Proof.
  intros Hplain keys occ ranking.
  split; [apply grouping_plain; exact Hplain|].
  set (o := hostListings (data h)).
  set (byCount := fun a b : string * nat => (snd b <? snd a)%nat).
  assert (Hasym : forall a b, byCount a b = true -> byCount b a = false).
  { intros a b. unfold byCount. rewrite Nat.ltb_lt, Nat.ltb_ge. lia. }
  assert (Hneg : forall a b c, byCount a b = false -> byCount b c = false ->
                               byCount a c = false).
  { intros a b c. unfold byCount. rewrite !Nat.ltb_ge. lia. }
  assert (Hperm : Permutation o ranking).
  { eapply perm_trans; [apply entries_perm|]. apply stable_sort_perm. }
  assert (Hkeys : List.map fst o = first_seen keys).
  { apply keys_hostListings. }
  assert (Hnd : NoDup (List.map fst o)).
  { rewrite Hkeys. apply NoDup_first_seen. }
  assert (Hocc : forall k n, In (k, n) o <-> n = occ k /\ (0 < n)%nat).
  { intros k n. rewrite (counts_get_In k n o Hnd).
    unfold o. rewrite counts_get_hostListings. fold keys. fold (occ k).
    destruct (occ k) as [|m].
    - split; [discriminate|]. intros [-> H]. lia.
    - split.
      + intros H. inversion H. split; [reflexivity|lia].
      + intros [-> _]. reflexivity. }
  split; [exact Hperm|].
  split; [|split; [|split; [|split]]].
  - pose proof (stable_sort_sorted byCount Hasym Hneg (entries o)) as S.
    eapply StronglySorted_ind with (P := fun l => StronglySorted _ l);
      [constructor| |exact S].
    intros a l _ IH Ha. constructor; [exact IH|].
    eapply Forall_impl; [|exact Ha]. intros b Hb. simpl in Hb.
    unfold byCount in Hb. apply Nat.ltb_ge in Hb. exact Hb.
  - eapply Permutation_NoDup; [|exact Hnd].
    apply Permutation_map. exact Hperm.
  - intros k n. rewrite <- Hocc. split; apply Permutation_in;
      [apply Permutation_sym|]; exact Hperm.
  - intros n. unfold ranking, computeListingsPerHost. fold o.
    rewrite (stable_sort_stable byCount (fun e => (snd e =? n)%nat)).
    + rewrite (map_fst_filter_snd occ).
      * rewrite entries_keys, Hkeys. reflexivity.
      * intros [k v] He. simpl.
        apply (Permutation_in _ (Permutation_sym (entries_perm o))) in He.
        apply Hocc in He. tauto.
    + intros a b Ha Hb. unfold byCount.
      apply Nat.eqb_eq in Ha. apply Nat.eqb_eq in Hb.
      apply Nat.ltb_ge. lia.
  - eexists. split; [reflexivity|]. split.
    + apply Permutation_sym. apply stable_sort_perm.
    + set (byIndex := fun a b : string => (index_of a <? index_of b)%N).
      pose proof (stable_sort_sorted byIndex) as S.
      assert (Ha : forall a b, byIndex a b = true -> byIndex b a = false).
      { intros a b. unfold byIndex. rewrite N.ltb_lt, N.ltb_ge. lia. }
      assert (Hn : forall a b c, byIndex a b = false -> byIndex b c = false ->
                                 byIndex a c = false).
      { intros a b c. unfold byIndex. rewrite !N.ltb_ge. lia. }
      specialize (S Ha Hn (List.filter is_index (first_seen keys))).
      eapply StronglySorted_ind with (P := fun l => StronglySorted _ l);
        [constructor| |exact S].
      intros a l _ IH Hl. constructor; [exact IH|].
      eapply Forall_impl; [|exact Hl]. intros b Hb. simpl in Hb.
      unfold byIndex in Hb. apply N.ltb_ge in Hb. exact Hb.
Qed.

Lemma computeListingsPerHost_ranking_witness :
  List.map fst
    (List.filter (fun e => (snd e =? 1)%nat)
       (computeListingsPerHost
          (AirBnBDataHandler
             [[("host_id", "B")]; [("host_id", "20")]; [("host_id", "A")];
              [("host_id", "10")]; [("host_id", "B")]])))
  = ["10"; "20"; "A"].
Proof.
  exact (proj1 (proj2 (proj2 (proj2 (proj2 (proj2
           (computeListingsPerHost_ranking
              (AirBnBDataHandler
                 [[("host_id", "B")]; [("host_id", "20")]; [("host_id", "A")];
                  [("host_id", "10")]; [("host_id", "B")]])
              ltac:(repeat constructor))))))) 1%nat).
Defined.

(** ** The export document *)

(** A lossless value is written as it is and read back as it was. *)
Lemma serialize_parse (v : value) :
  lossless v = true -> exists j, serialize v = Some j /\ parse j = v.
Proof.
  induction v as [| |b|n|s|l IH|l IH] using value_induction; intros H.
  - discriminate.
  - exists JNull. split; reflexivity.
  - exists (JBool b). split; reflexivity.
  - destruct n as [sg|sg| |sg m e]; simpl in H; try discriminate.
    + destruct sg; [discriminate|]. eexists. split; reflexivity.
    + eexists. split; reflexivity.
  - exists (JStr s). split; reflexivity.
  - simpl. eexists. split; [reflexivity|]. simpl. f_equal.
    simpl in H. induction IH as [|x l Hx Hl IHl]; simpl; [reflexivity|].
    simpl in H. apply andb_prop in H. destruct H as [H1 H2].
    destruct (Hx H1) as [j [E1 E2]]. rewrite E1, E2. f_equal.
    apply IHl. exact H2.
  - simpl. eexists. split; [reflexivity|]. simpl. f_equal.
    simpl in H. induction IH as [|[k x] l Hx Hl IHl]; simpl; [reflexivity|].
    simpl in H. apply andb_prop in H. destruct H as [H1 H2].
    simpl in Hx. destruct (Hx H1) as [j [E1 E2]]. rewrite E1. simpl.
    rewrite E2. f_equal. apply IHl. exact H2.
Qed.

Lemma lossless_record_value (r : record) : lossless (record_value r) = true.
Proof.
  unfold record_value. simpl. generalize (entries r). intros l.
  induction l as [|kv l IH]; simpl; [reflexivity|exact IH].
Qed.

Lemma lossless_data_value (d : list record) : lossless (data_value d) = true.
Proof.
  unfold data_value.
  change (forallb lossless (List.map record_value d) = true).
  induction d as [|r d IH]; [reflexivity|].
  cbn [List.map forallb]. rewrite lossless_record_value. exact IH.
Qed.

Lemma read_file_written (path : string) (doc : json) (fs : files) :
  read_file path {| contents := (path, doc) :: contents fs;
                    writable := writable fs |} = Some doc.
Proof. unfold read_file. simpl. rewrite String.eqb_refl. reflexivity. Qed.

(** What is written for a value without [undefined] reads back as the
    value with its NaN and infinite Numbers replaced by [null]. *)
Lemma serialize_nulled (v : value) :
  defined v = true -> exists j, serialize v = Some j /\ parse j = nulled v.
Proof.
  induction v as [| |b|n|s|l IH|l IH] using value_induction; intros H.
  - discriminate.
  - exists JNull. split; reflexivity.
  - exists (JBool b). split; reflexivity.
  - destruct n as [sg|sg| |sg m e]; simpl; eexists; split; reflexivity.
  - exists (JStr s). split; reflexivity.
  - simpl. eexists. split; [reflexivity|]. simpl. f_equal.
    simpl in H. induction IH as [|x l Hx Hl IHl]; simpl; [reflexivity|].
    simpl in H. apply andb_prop in H. destruct H as [H1 H2].
    destruct (Hx H1) as [j [E1 E2]]. rewrite E1, E2. f_equal.
    apply IHl. exact H2.
  - simpl. eexists. split; [reflexivity|]. simpl. f_equal.
    simpl in H. induction IH as [|[k x] l Hx Hl IHl]; simpl; [reflexivity|].
    simpl in H. apply andb_prop in H. destruct H as [H1 H2].
    simpl in Hx. destruct (Hx H1) as [j [E1 E2]]. rewrite E1. simpl.
    rewrite E2. f_equal. apply IHl. exact H2.
Qed.

(** A lossless value has no [undefined] and nothing to replace. *)
Lemma lossless_nulled (v : value) :
  lossless v = true -> defined v = true /\ nulled v = v.
Proof.
  induction v as [| |b|n|s|l IH|l IH] using value_induction; intros H;
    try discriminate; try (split; reflexivity).
  - destruct n as [sg|sg| |sg m e]; simpl in H; try discriminate.
    + destruct sg; [discriminate|]. split; reflexivity.
    + split; reflexivity.
  - simpl in H. simpl.
    assert (G : forallb defined l = true /\ List.map nulled l = l).
    { induction IH as [|x l Hx Hl IHl]; simpl; [split; reflexivity|].
      simpl in H. apply andb_prop in H. destruct H as [H1 H2].
      destruct (Hx H1) as [D N]. destruct (IHl H2) as [D' N'].
      rewrite D, D', N, N'. split; reflexivity. }
    destruct G as [D N]. rewrite D, N. split; reflexivity.
  - simpl in H. simpl.
    assert (G : forallb (fun kx => defined (snd kx)) l = true
                /\ List.map (fun kx => (fst kx, nulled (snd kx))) l = l).
    { induction IH as [|[k x] l Hx Hl IHl]; simpl; [split; reflexivity|].
      simpl in H. apply andb_prop in H. destruct H as [H1 H2].
      simpl in Hx. destruct (Hx H1) as [D N]. destruct (IHl H2) as [D' N'].
      rewrite D, D', N, N'. split; reflexivity. }
    destruct G as [D N]. rewrite D, N. split; reflexivity.
Qed.

(** At a path that can be written, a document without [undefined] is
    written, [this] is returned and the document reads back with [null]
    for the Numbers that are not finite. *)
Lemma export_reads_back_nulled
  (this : handler) (filePath : string) (calculations : value) (fs : files) :
  writable fs filePath = true ->
  defined calculations = true ->
  exists fs',
    exportResults this filePath calculations fs = Written fs' this
    /\ read_export filePath fs'
       = Some (exportContent this (nulled calculations)).
Proof.
  intros Hw Hd.
  assert (Hc : defined (exportContent this calculations) = true).
  { unfold exportContent.
    change (defined (data_value (data this))
            && (defined calculations && true) = true).
    rewrite (proj1 (lossless_nulled _ (lossless_data_value (data this)))), Hd.
    reflexivity. }
  destruct (serialize_nulled _ Hc) as [doc [E1 E2]].
  unfold exportResults.
  replace (match calculations with
           | VUndefined => VObj []
           | _ => calculations
           end) with calculations
    by (destruct calculations; [discriminate Hd|reflexivity..]).
  rewrite E1, Hw. eexists. split; [reflexivity|].
  unfold read_export. rewrite read_file_written. simpl. rewrite E2.
  unfold exportContent. cbn [nulled List.map fst snd].
  rewrite (proj2 (lossless_nulled _ (lossless_data_value (data this)))).
  reflexivity.
Qed.

(** At a path that can be written the record sequence of an export is
    always read back as it was. *)
Lemma export_reads_back_listings
  (this : handler) (filePath : string) (calculations : value) (fs : files) :
  writable fs filePath = true ->
  exists fs' c,
    exportResults this filePath calculations fs = Written fs' this
    /\ read_export filePath fs'
       = Some (VObj [("filteredListings", data_value (data this));
                     ("calculations", c)]).
Proof.
  intros Hw. unfold exportResults, exportContent.
  set (calc := match calculations with
               | VUndefined => VObj []
               | _ => calculations
               end).
  assert (Hc : exists j, serialize calc = Some j).
  { unfold calc. destruct calculations; simpl; eexists; reflexivity. }
  destruct Hc as [j Hj].
  destruct (serialize_parse _ (lossless_data_value (data this))) as [jd [E1 E2]].
  cbn [serialize List.flat_map snd fst]. rewrite E1, Hj.
  cbn [app]. rewrite Hw. eexists. eexists. split; [reflexivity|].
  unfold read_export. rewrite read_file_written.
  cbn [option_map parse List.map fst snd]. rewrite E2. reflexivity.
Qed.

(** Where the platform refuses the write, nothing is returned. *)
Lemma export_fails_unwritable
  (this : handler) (filePath : string) (calculations : value) (fs : files) :
  writable fs filePath = false ->
  exportResults this filePath calculations fs = WriteFailed.
Proof.
  intros Hw. unfold exportResults. destruct (serialize _); [|reflexivity].
  rewrite Hw. reflexivity.
Qed.

(** C3, as stated, fails: the statistics of a table with the price "N/A"
    hold a NaN average, which the export writes as [null]; what is read
    back differs from what was passed in. *)
Lemma export_nan_average_reads_back_null :
  let this := AirBnBDataHandler [[("price", "N/A"); ("bedrooms", "1")]] in
  let stats :=
    VObj [("count", VNum (of_nat 1));
          ("avgPricePerBedroom", VObj [("1", VNum NaN)])] in
  stats_value (computeStats this) = Some stats
  /\ read_back "out.json"
       (exportResults this "out.json" (VObj [("stats", stats)]) blank_disk)
     = Some (VObj
               [("filteredListings",
                 VArr [VObj [("price", VStr "N/A"); ("bedrooms", VStr "1")]]);
                ("calculations",
                 VObj [("stats",
                        VObj [("count", VNum (of_nat 1));
                              ("avgPricePerBedroom",
                               VObj [("1", VNull)])])])])
  /\ read_back "out.json"
       (exportResults this "out.json" (VObj [("stats", stats)]) blank_disk)
     <> Some (exportContent this (VObj [("stats", stats)])).
Proof.
  split; [vm_compute; reflexivity|].
  split; [vm_compute; reflexivity|].
  vm_compute. discriminate.
Qed.

(** C3, amended: for every table, every path at which the file can be
    written and every calculations object that holds no NaN, no infinite
    Number, no negative zero and no [undefined], [exportResults] writes the
    document and returns the handler as it is, and reading the document
    back gives exactly the record sequence and the calculations object that
    were passed in.  For every calculations object without [undefined],
    what is read back is the record sequence as it was and the calculations
    with [null] in place of each NaN or infinite Number (and zero in place
    of negative zero); the record sequence is read back as it was whatever
    the calculations are.  At a path where the write is refused,
    [exportResults] fails and returns nothing. *)
Theorem export_round_trip
  (this : handler) (filePath : string) (calculations : value) (fs : files) :
  writable fs filePath = true ->
  lossless calculations = true ->
  (exists fs',
     exportResults this filePath calculations fs = Written fs' this
     /\ read_export filePath fs' = Some (exportContent this calculations))
  /\ read_back filePath (exportResults this filePath calculations fs)
     = Some (exportContent this calculations)
  /\ (forall other : value,
        defined other = true ->
        read_back filePath (exportResults this filePath other fs)
        = Some (exportContent this (nulled other)))
  /\ (forall (k : string) (n : number) (props : list (string * value)),
        is_finite n = false ->
        nulled (VObj ((k, VNum n) :: props))
        = VObj ((k, VNull)
                :: List.map (fun kx => (fst kx, nulled (snd kx))) props))
  /\ (forall other : value, exists c,
        read_back filePath (exportResults this filePath other fs)
        = Some (VObj [("filteredListings", data_value (data this));
                      ("calculations", c)]))
  /\ (forall (fs0 : files) (other : value),
        writable fs0 filePath = false ->
        exportResults this filePath other fs0 = WriteFailed
        /\ read_back filePath (exportResults this filePath other fs0) = None).
Proof.
  intros Hw H. destruct (lossless_nulled _ H) as [Hd Hn].
  destruct (export_reads_back_nulled this filePath calculations fs Hw Hd)
    as [fs' [E R]].
  rewrite Hn in R.
  split; [exists fs'; split; assumption|].
  split; [rewrite E; exact R|].
  split; [|split; [|split]].
  - intros other Ho.
    destruct (export_reads_back_nulled this filePath other fs Hw Ho)
      as [fs1 [E1 R1]].
    rewrite E1. exact R1.
  - intros k n props Hn'. simpl.
    destruct n as [sg|sg| |sg m e]; try discriminate Hn'; reflexivity.
  - intros other.
    destruct (export_reads_back_listings this filePath other fs Hw)
      as [fs1 [c [E1 R1]]].
    exists c. rewrite E1. exact R1.
  - intros fs0 other Hw0.
    rewrite (export_fails_unwritable this filePath other fs0 Hw0).
    split; reflexivity.
Qed.

Lemma export_round_trip_witness :
  read_back "out.json"
    (exportResults
       (AirBnBDataHandler [[("host_id", "7"); ("price", "$100")]])
       "out.json"
       (VObj [("rankings", ranking_value [("7", 1%nat)]);
              ("locationCount", VArr [VStr "Paris"; VNum (of_nat 0)])])
       blank_disk)
  = Some (exportContent
            (AirBnBDataHandler [[("host_id", "7"); ("price", "$100")]])
            (VObj [("rankings", ranking_value [("7", 1%nat)]);
                   ("locationCount", VArr [VStr "Paris"; VNum (of_nat 0)])])).
Proof.
  exact (proj1 (proj2 (export_round_trip
                  (AirBnBDataHandler [[("host_id", "7"); ("price", "$100")]])
                  "out.json"
                  (VObj [("rankings", ranking_value [("7", 1%nat)]);
                         ("locationCount",
                          VArr [VStr "Paris"; VNum (of_nat 0)])])
                  blank_disk ltac:(reflexivity)
                  ltac:(vm_compute; reflexivity)))).
Defined.

(** ** The examples of the specification *)

Example extractPrice_thousands :
  extractPrice "$1,040.50" = parseFloat "1040.50"
  /\ extractPrice "$140.00" = of_nat 140.
Proof. split; vm_compute; reflexivity. Qed.

Example filter_without_criteria (h : handler) :
  filter h no_criteria = Ok (AirBnBDataHandler (data h)).
Proof. reflexivity. Qed.

Example computeStats_empty :
  computeStats (AirBnBDataHandler [])
  = {| count := 0; avgPricePerBedroom := [] |}.
Proof. reflexivity. Qed.

Example computeStats_empty_price :
  computeStats
    (AirBnBDataHandler
       [[("price", "$100"); ("bedrooms", "1")];
        [("price", ""); ("bedrooms", "1")]])
  = {| count := 2; avgPricePerBedroom := [(of_nat 1, of_nat 100)] |}.
Proof. vm_compute. reflexivity. Qed.

Example computeListingsPerHost_letters :
  computeListingsPerHost
    (AirBnBDataHandler [[("host_id", "A")]; [("host_id", "B")]; [("host_id", "A")]])
  = [("A", 2%nat); ("B", 1%nat)].
Proof. reflexivity. Qed.

Example parse_examples :
  parseInt "2 beds" = of_nat 2
  /\ parseInt "0x1A" = of_nat 26
  /\ parseInt "" = NaN
  /\ parseFloat "4.5 stars" = parseFloat "45e-1"
  /\ parseFloat ".5" = parseFloat "0.5"
  /\ parseFloat "1.2.3" = parseFloat "1.2"
  /\ parseFloat "undefined" = NaN
  /\ parseInt "9007199254740993" = of_Z 9007199254740992 false.
Proof. repeat split; vm_compute; reflexivity. Qed.

(** * Further properties of the code *)

(** ** [filter]: bedrooms and rating *)

(** X1: a [filter] without a price criterion never throws; a listing
    without [bedrooms], or with an empty one, never passes a bedrooms
    criterion, and a listing without [review_scores_rating], or with an
    empty one, never passes a rating criterion. *)
Theorem filter_missing_bedrooms_or_rating_excluded (h : handler) (c : criteria) :
  price c = None ->
  filter h c = Ok (AirBnBDataHandler (List.filter (satisfies c) (data h)))
  /\ (forall r b,
        get "bedrooms" r = None \/ get "bedrooms" r = Some "" ->
        bedrooms_pass b r = false)
  /\ (forall r x,
        get "review_scores_rating" r = None
        \/ get "review_scores_rating" r = Some "" ->
        rating_pass x r = false).
Proof.
  intros Hp. split; [|split].
  - unfold filter. rewrite filter_data_satisfies by (left; exact Hp).
    reflexivity.
  - intros r b [H|H]; unfold bedrooms_pass; rewrite H; reflexivity.
  - intros r x [H|H]; unfold rating_pass, ge; rewrite H;
      apply le_nan_r.
Qed.

Lemma filter_missing_bedrooms_or_rating_excluded_witness :
  filter (AirBnBDataHandler
            [[("bedrooms", "2 rooms"); ("review_scores_rating", "4.8")];
             [("review_scores_rating", "4.9")];
             [("bedrooms", "2")]])
    {| price := None; room_type := None; bedrooms := Some (parseInt "2");
       review_scores_rating := Some (parseFloat "4.5") |}
  = Ok (AirBnBDataHandler
          [[("bedrooms", "2 rooms"); ("review_scores_rating", "4.8")]]).
Proof.
  exact (proj1 (filter_missing_bedrooms_or_rating_excluded
                  (AirBnBDataHandler
                     [[("bedrooms", "2 rooms"); ("review_scores_rating", "4.8")];
                      [("review_scores_rating", "4.9")];
                      [("bedrooms", "2")]])
                  {| price := None; room_type := None;
                     bedrooms := Some (parseInt "2");
                     review_scores_rating := Some (parseFloat "4.5") |}
                  eq_refl)).
Defined.

(** ** [filter]: repetition and order *)

Lemma price_ok_has_price (c : criteria) (p : number) (r : record) :
  price c = Some p -> price_ok c r = true -> has_field "price" r = true.
Proof.
  unfold price_ok, has_field. intros Hc. rewrite Hc.
  destruct (get "price" r); [reflexivity|discriminate].
Qed.

Lemma filter_idem_list {A : Type} (p : A -> bool) (l : list A) :
  List.filter p (List.filter p l) = List.filter p l.
Proof.
  rewrite filter_filter. apply filter_ext. intros x. destruct (p x); reflexivity.
Qed.

(** X2: filtering the result of a [filter] again by the same criteria
    returns the same record sequence. *)
Theorem filter_idempotent (h h1 : handler) (c : criteria) :
  filter h c = Ok h1 -> filter h1 c = Ok h1.
Proof.
  unfold filter. intros H.
  destruct (filter_data c (data h)) as [d|] eqn:Hd; simpl in H; [|discriminate].
  inversion H; subst h1. simpl. clear H.
  apply filter_data_conjunction in Hd. subst d.
  rewrite filter_data_satisfies.
  - simpl. rewrite filter_idem_list. reflexivity.
  - destruct (price c) as [p|] eqn:Hc; [right|left; reflexivity].
    apply Forall_forall. intros r Hr. apply filter_In in Hr.
    destruct Hr as [_ Hr]. apply satisfies_spec in Hr.
    apply (price_ok_has_price c p r Hc). tauto.
Qed.

Lemma filter_idempotent_witness :
  filter (AirBnBDataHandler [[("price", "$80"); ("bedrooms", "2")]])
    {| price := Some (parseFloat "100"); room_type := None;
       bedrooms := Some (parseInt "2"); review_scores_rating := None |}
  = Ok (AirBnBDataHandler [[("price", "$80"); ("bedrooms", "2")]]).
Proof.
  apply (filter_idempotent
           (AirBnBDataHandler
              [[("price", "$80"); ("bedrooms", "2")];
               [("price", "$120"); ("bedrooms", "2")]])).
  vm_compute. reflexivity.
Defined.

(** X3: on a table whose listings all have a price, two filters applied
    one after the other give the same result in either order. *)
Theorem filter_order_irrelevant (h : handler) (c1 c2 : criteria) :
  Forall (fun r => has_field "price" r = true) (data h) ->
  (h1 <- filter h c1 ;; filter h1 c2) = (h2 <- filter h c2 ;; filter h2 c1).
Proof.
  intros H. pose proof (filter_data_commutes c1 c2 (data h) H) as E.
  unfold filter.
  destruct (filter_data c1 (data h)) as [d1|];
    destruct (filter_data c2 (data h)) as [d2|]; simpl in *;
    first [rewrite E|rewrite <- E|idtac]; reflexivity.
Qed.

Lemma filter_order_irrelevant_witness :
  (h1 <- filter (AirBnBDataHandler
                   [[("price", "$80"); ("bedrooms", "2")];
                    [("price", "$120"); ("bedrooms", "2")]])
           {| price := None; room_type := None;
              bedrooms := Some (parseInt "2"); review_scores_rating := None |} ;;
   filter h1 {| price := Some (parseFloat "100"); room_type := None;
                bedrooms := None; review_scores_rating := None |})
  = Ok (AirBnBDataHandler [[("price", "$80"); ("bedrooms", "2")]]).
Proof.
  rewrite (filter_order_irrelevant
             (AirBnBDataHandler
                [[("price", "$80"); ("bedrooms", "2")];
                 [("price", "$120"); ("bedrooms", "2")]])
             {| price := None; room_type := None;
                bedrooms := Some (parseInt "2"); review_scores_rating := None |}
             {| price := Some (parseFloat "100"); room_type := None;
                bedrooms := None; review_scores_rating := None |}
             ltac:(repeat constructor)).
  vm_compute. reflexivity.
Defined.

(** ** [filter] on the store: sharing *)

(** X4: when no pass is applied (no price, bedrooms or rating criterion and
    no room type, or the empty one), the new handler that [filter] returns
    holds the very array of the original, and no array is allocated;
    when a pass is applied and the call returns, the new handler holds an
    array that did not exist before. *)
Theorem filter_shares_or_allocates
  (h : Heap.heap) (this : Heap.href) (c : criteria) :
  (nothing_applied c ->
   exists h' that,
     Heap.filter this c h = Ok (h', that)
     /\ Heap.arrays h' = Heap.arrays h
     /\ Heap.data_ref h' that = Heap.data_ref h this)
  /\ (~ nothing_applied c ->
      forall h' that,
        Heap.filter this c h = Ok (h', that) ->
        (List.length (Heap.arrays h) <= Heap.data_ref h' that)%nat
        /\ (List.length (Heap.arrays h) < List.length (Heap.arrays h'))%nat).
Proof.
  split.
  - intros [Hp [Hr [Hb Hx]]].
    exists {| Heap.arrays := Heap.arrays h;
              Heap.handlers := (Heap.handlers h ++ [Heap.data_ref h this])%list |},
      (List.length (Heap.handlers h)).
    split; [|split; [reflexivity|]].
    + unfold Heap.filter. rewrite Hp, Hb, Hx.
      destruct Hr as [Hr|Hr]; rewrite Hr; reflexivity.
    + unfold Heap.data_ref at 1. simpl. apply nth_middle.
  - intros Hn h' that.
    unfold Heap.filter, Heap.array_filter, Heap.pure.
    destruct (price c) as [p|] eqn:Hp.
    + destruct (filterM (price_pass p) _) as [l1|]; simpl; [|discriminate].
      destruct (room_type c) as [[|a rt]|]; simpl;
        destruct (bedrooms c) as [b|]; simpl;
        destruct (review_scores_rating c) as [x|]; simpl;
        rewrite ?filterM_pure; simpl;
        rewrite ?filterM_pure; simpl;
        rewrite ?filterM_pure; simpl;
        intros E; inversion E; subst; clear E;
        unfold Heap.data_ref; simpl; rewrite nth_middle;
        rewrite ?length_app; simpl; lia.
    + simpl.
      destruct (room_type c) as [[|a rt]|] eqn:Hr; simpl;
        destruct (bedrooms c) as [b|] eqn:Hb; simpl;
        destruct (review_scores_rating c) as [x|] eqn:Hx; simpl;
        try (exfalso; apply Hn; unfold nothing_applied;
             rewrite Hp, Hr, Hb, Hx; tauto);
        rewrite ?filterM_pure; simpl;
        rewrite ?filterM_pure; simpl;
        rewrite ?filterM_pure; simpl;
        intros E; inversion E; subst; clear E;
        unfold Heap.data_ref; simpl; rewrite nth_middle;
        rewrite ?length_app; simpl; lia.
Qed.

Lemma filter_shares_or_allocates_witness :
  (exists h' that,
     Heap.filter 0%nat
       {| price := None; room_type := Some ""; bedrooms := None;
          review_scores_rating := None |}
       {| Heap.arrays := [[[("price", "$80")]]]; Heap.handlers := [0%nat] |}
     = Ok (h', that)
     /\ Heap.arrays h' = [[[("price", "$80")]]]
     /\ Heap.data_ref h' that = 0%nat)
  /\ (1 <= Heap.data_ref
             {| Heap.arrays := [[[("price", "$80")]]; [[("price", "$80")]]];
                Heap.handlers := [0%nat; 1%nat] |} 1)%nat.
Proof.
  split.
  - exact (proj1 (filter_shares_or_allocates
                    {| Heap.arrays := [[[("price", "$80")]]];
                       Heap.handlers := [0%nat] |} 0%nat
                    {| price := None; room_type := Some ""; bedrooms := None;
                       review_scores_rating := None |})
             ltac:(repeat split; right; reflexivity)).
  - exact (proj1 (proj2 (filter_shares_or_allocates
                           {| Heap.arrays := [[[("price", "$80")]]];
                              Heap.handlers := [0%nat] |} 0%nat
                           {| price := Some (parseFloat "100");
                              room_type := None; bedrooms := None;
                              review_scores_rating := None |})
                    ltac:(intros [H _]; discriminate H)
                    {| Heap.arrays := [[[("price", "$80")]]; [[("price", "$80")]]];
                       Heap.handlers := [0%nat; 1%nat] |} 1%nat
                    ltac:(vm_compute; reflexivity))).
Defined.

(** ** [extractPrice]: what the stripping ignores *)

Lemma filter_chars_app (p : ascii -> bool) (a b : string) :
  filter_chars p (a ++ b) = filter_chars p a ++ filter_chars p b.
Proof.
  induction a as [|c a IH]; simpl; [reflexivity|].
  destruct (p c); simpl; rewrite IH; reflexivity.
Qed.

(** X5: a character that is neither a digit nor '.' has no effect on the
    price, wherever it stands: currency signs, thousands separators, minus
    signs, letters and blanks are ignored. *)
Theorem extractPrice_ignores_other_characters (a b : string) (c : ascii) :
  price_char c = false ->
  extractPrice (a ++ String c b) = extractPrice (a ++ b).
Proof.
  intros Hc. unfold extractPrice. rewrite !filter_chars_app. simpl.
  rewrite Hc. reflexivity.
Qed.

Lemma extractPrice_ignores_other_characters_witness :
  extractPrice "$1,040.50" = extractPrice "$1040.50".
Proof.
  exact (extractPrice_ignores_other_characters "$1" "040.50" ","
           ltac:(reflexivity)).
Defined.

Lemma binary_round_aux_nonneg (mx ex : Z) (lx : location) :
  is_negative (binary_round_aux prec emax false mx ex lx) = false.
Proof.
  unfold binary_round_aux.
  destruct (shr_fexp prec emax mx ex lx) as [mrs e1].
  destruct (shr_fexp prec emax _ e1 loc_Exact) as [mrs2 e2].
  destruct (shr_m mrs2); [reflexivity| |reflexivity].
  destruct (Z.leb e2 (Z.sub emax prec)); reflexivity.
Qed.

Lemma of_decimal_nonneg (m : N) (e10 : Z) :
  is_negative (of_decimal false m e10) = false.
Proof.
  unfold of_decimal. destruct m as [|p]; [reflexivity|].
  destruct (0 <=? e10).
  - unfold binary_round.
    destruct (shl_align _ 0 _) as [mz ez].
    apply binary_round_aux_nonneg.
  - destruct (SFdiv_core_binary prec emax (Z.pos p) 0 (10 ^ (- e10)) 0)
      as [[mz ez] lz].
    apply binary_round_aux_nonneg.
Qed.

Lemma unsigned_decimal_nonneg (s : string) :
  is_negative (unsigned_decimal false s) = false.
Proof.
  unfold unsigned_decimal.
  destruct (prefix "Infinity" s); [reflexivity|].
  destruct (span_digits s) as [ip r1].
  assert (Hplain : is_negative
                     (if is_empty ip then NaN
                      else of_decimal false (digits_value ip) (exponent_part r1))
                   = false).
  { destruct (is_empty ip); [reflexivity|apply of_decimal_nonneg]. }
  destruct r1 as [|c r1']; [exact Hplain|].
  destruct (Ascii.eqb c ".") eqn:Hc.
  - apply Ascii.eqb_eq in Hc. subst c.
    destruct (span_digits r1') as [fp r2].
    destruct (is_empty ip && is_empty fp); [reflexivity|apply of_decimal_nonneg].
  - destruct c as [[] [] [] [] [] [] [] []]; try exact Hplain.
    discriminate.
Qed.

Lemma extractPrice_nonneg (s : string) : is_negative (extractPrice s) = false.
Proof.
  unfold extractPrice. rewrite parseFloat_unsigned by apply filter_chars_all.
  apply unsigned_decimal_nonneg.
Qed.

Lemma le_negative (x p : number) :
  is_negative x = false -> is_negative p = true -> le x p = false.
Proof.
  destruct x as [sx|sx| |sx mx ex], p as [sp|sp| |sp mp ep];
    try destruct sx; try destruct sp; simpl; intros Hx Hp;
    try discriminate; reflexivity.
Qed.

(** X6: the price that [extractPrice] reads is never below zero, so a price
    criterion below zero keeps no listing. *)
Theorem filter_negative_price_keeps_nothing (h : handler) (p : number) :
  Forall (fun r => has_field "price" r = true) (data h) ->
  is_negative p = true ->
  (forall s, is_negative (extractPrice s) = false)
  /\ filter h {| price := Some p; room_type := None; bedrooms := None;
                 review_scores_rating := None |}
     = Ok (AirBnBDataHandler []).
Proof.
  intros Hall Hp. split; [apply extractPrice_nonneg|].
  unfold filter. rewrite filter_data_satisfies by (right; exact Hall).
  simpl. do 2 f_equal. apply filter_false. intros r _.
  unfold satisfies, price_ok. simpl.
  destruct (get "price" r) as [s|]; [|reflexivity].
  rewrite (le_negative _ p (extractPrice_nonneg s) Hp). reflexivity.
Qed.

Lemma filter_negative_price_keeps_nothing_witness :
  filter (AirBnBDataHandler [[("price", "-$5")]; [("price", "$0")]])
    {| price := Some (parseFloat "-1"); room_type := None; bedrooms := None;
       review_scores_rating := None |}
  = Ok (AirBnBDataHandler []).
Proof.
  exact (proj2 (filter_negative_price_keeps_nothing
                  (AirBnBDataHandler [[("price", "-$5")]; [("price", "$0")]])
                  (parseFloat "-1")
                  ltac:(repeat constructor) ltac:(reflexivity))).
Defined.

(** ** [computeStats]: the averages and the buckets *)

(** X7: for every table and every bedroom count [k], the average reported
    for [k] is the sum of the prices of the listings accumulated under [k]
    (those with a non-blank price whose bedrooms parse to [k]), added from 0
    in table order, divided by their number; nothing is reported for a
    bedroom count under which no listing was accumulated. *)
Theorem computeStats_average (h : handler) (k : number) :
  avg_get k (avgPricePerBedroom (computeStats h)) =
  match List.filter (contributes k) (data h) with
  | [] => None
  | cs => Some (div (fold_left add (List.map priceValue cs) zero)
                    (of_nat (List.length cs)))
  end.
Proof.
  unfold computeStats. cbn [avgPricePerBedroom].
  rewrite avg_get_map, bucket_get_accumulate.
  destruct (List.filter (contributes k) (data h)) as [|y cs]; reflexivity.
Qed.

Lemma bucket_update_app (k : number) (f : Bucket.t -> Bucket.t)
  (acc l : buckets) :
  bucket_get k acc = None ->
  bucket_update k f (acc ++ l)%list = (acc ++ bucket_update k f l)%list.
Proof.
  induction acc as [|[k' b] acc IH]; simpl; intros H; [reflexivity|].
  destruct (same_key k' k); [discriminate|]. rewrite IH by exact H.
  reflexivity.
Qed.

Lemma bucket_total_app (acc l : buckets) :
  bucket_total (acc ++ l)%list = (bucket_total acc + bucket_total l)%nat.
Proof.
  unfold bucket_total. rewrite map_app, list_sum_app. reflexivity.
Qed.

Lemma bucket_total_update (k : number) (f : Bucket.t -> Bucket.t)
  (acc : buckets) :
  (forall b, Bucket.count (f b) = S (Bucket.count b)) ->
  bucket_get k acc <> None ->
  bucket_total (bucket_update k f acc) = S (bucket_total acc).
Proof.
  intros Hf. induction acc as [|[k' b] acc IH]; simpl; intros H; [congruence|].
  destruct (same_key k' k).
  - unfold bucket_total. simpl. rewrite Hf. reflexivity.
  - unfold bucket_total in *. simpl. rewrite IH by exact H. lia.
Qed.

Lemma stats_step_total (acc : buckets) (x : record) :
  bucket_total (stats_step acc x)
  = (bucket_total acc + if price_skipped x then 0 else 1)%nat.
Proof.
  destruct (price_skipped x) eqn:Hs.
  - rewrite price_skipped_step by exact Hs. lia.
  - unfold stats_step. unfold price_skipped in Hs.
    destruct (get "price" x) as [p|] eqn:Hp; [|discriminate]. rewrite Hs.
    destruct (bucket_get (bedCount x) acc) as [b|] eqn:Hb.
    + rewrite bucket_total_update; [lia|reflexivity|congruence].
    + rewrite bucket_total_update.
      * rewrite bucket_total_app. unfold bucket_total at 2. simpl. lia.
      * reflexivity.
      * rewrite bucket_get_app, Hb, same_key_refl. discriminate.
Qed.

Lemma stats_step_counts (acc : buckets) (x : record) :
  Forall (fun kb => (1 <= Bucket.count (snd kb))%nat) acc ->
  Forall (fun kb => (1 <= Bucket.count (snd kb))%nat) (stats_step acc x).
Proof.
  intros H. unfold stats_step.
  destruct (get "price" x) as [p|]; [|exact H].
  destruct (is_empty p || is_empty (trim p)); [exact H|].
  assert (U : forall f l,
             (forall b, (1 <= Bucket.count (f b))%nat) ->
             Forall (fun kb => (1 <= Bucket.count (snd kb))%nat) l ->
             Forall (fun kb => (1 <= Bucket.count (snd kb))%nat)
               (bucket_update (bedCount x) f l)).
  { intros f l Hf Hl. induction Hl as [|[k' b] l Hb Hl IH]; simpl;
      [constructor|].
    destruct (same_key k' (bedCount x)); constructor; simpl; auto. }
  destruct (bucket_get (bedCount x) acc) as [b|] eqn:Hb.
  - apply U; [intros; simpl; lia|exact H].
  - rewrite bucket_update_app by exact Hb. apply Forall_app. split; [exact H|].
    simpl. rewrite same_key_refl. constructor; [simpl; lia|constructor].
Qed.

Lemma bucket_get_none_sym (k : number) (acc : buckets) :
  bucket_get k acc = None ->
  Forall (fun kb => same_key k (fst kb) = false) acc.
Proof.
  induction acc as [|[k' b] acc IH]; simpl; intros H; [constructor|].
  destruct (same_key k' k) eqn:E; [discriminate|].
  constructor; [|apply IH; exact H]. simpl.
  apply same_key_false in E. keys.
Qed.

Lemma keys_distinct_app (k : number) (b : Bucket.t) (acc : buckets) :
  keys_distinct acc -> bucket_get k acc = None ->
  keys_distinct (acc ++ [(k, b)])%list.
Proof.
  induction acc as [|[k' b'] acc IH]; simpl; intros Hd Hk.
  - split; [reflexivity|exact I].
  - destruct Hd as [Hn Hd]. destruct (same_key k' k) eqn:E; [discriminate|].
    split; [|apply IH; assumption].
    rewrite bucket_get_app, Hn. apply same_key_false in E. keys.
Qed.

Lemma keys_distinct_update (k : number) (f : Bucket.t -> Bucket.t)
  (acc : buckets) :
  keys_distinct acc -> keys_distinct (bucket_update k f acc).
Proof.
  induction acc as [|[k' b'] acc IH]; simpl; intros Hd; [exact I|].
  destruct Hd as [Hn Hd]. destruct (same_key k' k); simpl.
  - split; assumption.
  - split; [|apply IH; exact Hd].
    rewrite bucket_get_update, Hn. destruct (same_key k k'); reflexivity.
Qed.

Lemma stats_step_distinct (acc : buckets) (x : record) :
  keys_distinct acc -> keys_distinct (stats_step acc x).
Proof.
  intros H. unfold stats_step.
  destruct (get "price" x) as [p|]; [|exact H].
  destruct (is_empty p || is_empty (trim p)); [exact H|].
  apply keys_distinct_update.
  destruct (bucket_get (bedCount x) acc) eqn:Hb; [exact H|].
  apply keys_distinct_app; assumption.
Qed.

Lemma fold_invariant {A B : Type} (P : A -> Prop) (f : A -> B -> A)
  (l : list B) (a : A) :
  (forall a b, P a -> P (f a b)) -> P a -> P (fold_left f l a).
Proof.
  intros Hf. revert a. induction l as [|b l IH]; simpl; intros a Ha;
    [exact Ha|]. apply IH. apply Hf. exact Ha.
Qed.

(** X8: for every table, the buckets that [computeStats] accumulates hold
    one bucket per bedroom count, each counting at least one listing (the
    guard [count > 0] of the average always holds), and together they count
    exactly the listings whose price is not blank. *)
Theorem computeStats_buckets (h : handler) :
  keys_distinct (accumulate (data h))
  /\ Forall (fun kb => (1 <= Bucket.count (snd kb))%nat) (accumulate (data h))
  /\ bucket_total (accumulate (data h))
     = List.length (List.filter (fun r => negb (price_skipped r)) (data h))
  /\ (bucket_total (accumulate (data h)) <= count (computeStats h))%nat.
Proof.
  assert (T : forall d acc,
             bucket_total (fold_left stats_step d acc)
             = (bucket_total acc
                + List.length (List.filter (fun r => negb (price_skipped r)) d))%nat).
  { induction d as [|x d IH]; intros acc; simpl; [lia|].
    rewrite IH, stats_step_total.
    destruct (price_skipped x); simpl; lia. }
  split; [|split; [|split]].
  - unfold accumulate. apply fold_invariant; [apply stats_step_distinct|exact I].
  - unfold accumulate. apply fold_invariant; [apply stats_step_counts|constructor].
  - unfold accumulate. rewrite T. reflexivity.
  - unfold accumulate. rewrite T. simpl. apply filter_length_le.
Qed.

(** ** [computeListingsPerHost]: every listing is counted once *)

Lemma list_sum_perm (l1 l2 : list nat) :
  Permutation l1 l2 -> list_sum l1 = list_sum l2.
Proof.
  induction 1 as [|x l1 l2 H IH|x y l|l1 l2 l3 H1 IH1 H2 IH2]; simpl; lia.
Qed.

Lemma counts_set_total (k : string) (o : counts) :
  list_sum
    (List.map snd
       (counts_set k
          (match counts_get k o with Some n => n | None => 0 end + 1)%nat o))
  = S (list_sum (List.map snd o)).
Proof.
  induction o as [|[k' v] o IH]; simpl; [reflexivity|].
  destruct (String.eqb k' k); simpl; [lia|]. rewrite IH. lia.
Qed.

Lemma hostListings_total (d : list record) (acc : counts) :
  list_sum (List.map snd (fold_left host_step d acc))
  = (list_sum (List.map snd acc) + List.length d)%nat.
Proof.
  revert acc. induction d as [|x d IH]; intros acc; simpl; [lia|].
  rewrite IH. unfold host_step. rewrite counts_set_total. lia.
Qed.

Lemma ranking_perm (h : handler) :
  Permutation (hostListings (data h)) (computeListingsPerHost h).
Proof.
  unfold computeListingsPerHost.
  eapply perm_trans; [apply entries_perm|]. apply stable_sort_perm.
Qed.

(** The ranking holds a host with the count that the grouping gave it. *)
Lemma ranking_In (h : handler) (k : string) (n : nat) :
  In (k, n) (computeListingsPerHost h)
  <-> counts_get k (hostListings (data h)) = Some n.
Proof.
  rewrite <- counts_get_In.
  - split; apply Permutation_in;
      [apply Permutation_sym|]; apply ranking_perm.
  - rewrite keys_hostListings. apply NoDup_first_seen.
Qed.

(** X9: for every table whose host ids name no member of
    [Object.prototype], the counts of the ranking add up to the number of
    listings of the table: every listing is counted for exactly one host,
    a listing without [host_id] included. *)
Theorem computeListingsPerHost_counts_every_listing (h : handler) :
  plain_hosts (data h) ->
  list_sum (List.map snd (computeListingsPerHost h)) = List.length (data h).
Proof.
  intros _. rewrite <- (list_sum_perm _ _ (Permutation_map snd (ranking_perm h))).
  unfold hostListings. rewrite hostListings_total. reflexivity.
Qed.

Lemma computeListingsPerHost_counts_every_listing_witness :
  list_sum
    (List.map snd
       (computeListingsPerHost
          (AirBnBDataHandler
             [[("host_id", "7")]; [("price", "$10")]; [("host_id", "7")]])))
  = 3%nat.
Proof.
  exact (computeListingsPerHost_counts_every_listing
           (AirBnBDataHandler
              [[("host_id", "7")]; [("price", "$10")]; [("host_id", "7")]])
           ltac:(repeat constructor)).
Defined.

Lemma hostKey_undefined (r : record) :
  (if string_dec (hostKey r) "undefined" then true else false)
  = undefined_host r.
Proof.
  unfold hostKey, undefined_host, to_string.
  destruct (get "host_id" r) as [s|].
  - destruct (string_dec s "undefined") as [E|N].
    + subst s. reflexivity.
    + symmetry. apply String.eqb_neq. exact N.
  - reflexivity.
Qed.

(** X10: the listings without a [host_id] are grouped under the host name
    "undefined", together with the listings whose [host_id] is the text
    "undefined": the ranking holds the pair ("undefined", n) exactly when
    [n] is the number of such listings and there is at least one. *)
Theorem computeListingsPerHost_missing_host_id (h : handler) (n : nat) :
  In ("undefined", n) (computeListingsPerHost h)
  <-> n = List.length (List.filter undefined_host (data h)) /\ (0 < n)%nat.
Proof.
  rewrite ranking_In, counts_get_hostListings.
  assert (E : count_occ string_dec (List.map hostKey (data h)) "undefined"
              = List.length (List.filter undefined_host (data h))).
  { induction (data h) as [|r d IH]; simpl; [reflexivity|].
    rewrite <- hostKey_undefined.
    destruct (string_dec (hostKey r) "undefined"); simpl; rewrite IH;
      reflexivity. }
  rewrite E.
  destruct (List.length (List.filter undefined_host (data h))) as [|m].
  - split; [discriminate|]. intros [-> H]. lia.
  - split.
    + intros H. inversion H. split; [reflexivity|lia].
    + intros [-> _]. reflexivity.
Qed.

(** ** [filterByHostLocation]: composition *)

Lemma includes_empty (s : string) : includes s "" = true.
Proof. apply includes_spec. exists "", s. reflexivity. Qed.

Lemma string_app_assoc (a b c : string) : (a ++ b) ++ c = a ++ (b ++ c).
Proof. induction a as [|x a IH]; simpl; [|rewrite IH]; reflexivity. Qed.

(** Containment is transitive. *)
Lemma includes_trans (s a b : string) :
  includes s a = true -> includes a b = true -> includes s b = true.
Proof.
  rewrite !includes_spec. intros [p1 [q1 H1]] [p2 [q2 H2]].
  exists (p1 ++ p2), (q2 ++ q1). subst a s.
  rewrite !string_app_assoc. reflexivity.
Qed.

Lemma location_total (h : handler) (location : string) :
  Forall (fun r => has_field "host_location" r = true) (data h) ->
  filterByHostLocation h location
  = Ok (AirBnBDataHandler (List.filter (location_kept location) (data h))).
Proof.
  intros Hall. unfold filterByHostLocation.
  rewrite (filterM_total _ (location_kept location)); [reflexivity|].
  eapply Forall_impl; [|exact Hall]. intros r Hr.
  apply has_field_get in Hr. destruct Hr as [s Hs].
  unfold location_pass, location_kept. rewrite Hs. reflexivity.
Qed.

(** X11: on a table whose listings all have a [host_location], the empty
    location keeps every listing, and a location that contains another one
    keeps a part of what the other keeps: filtering by the longer one and
    then by the shorter one changes nothing more. *)
Theorem filterByHostLocation_refines (h : handler) (short long : string) :
  Forall (fun r => has_field "host_location" r = true) (data h) ->
  includes long short = true ->
  filterByHostLocation h "" = Ok (AirBnBDataHandler (data h))
  /\ (h1 <- filterByHostLocation h long ;; filterByHostLocation h1 short)
     = filterByHostLocation h long
  /\ (forall r, location_kept long r = true -> location_kept short r = true).
Proof.
  intros Hall Hsub.
  assert (M : forall r, location_kept long r = true ->
                        location_kept short r = true).
  { intros r. unfold location_kept.
    destruct (get "host_location" r) as [s|]; [|discriminate].
    intros H. eapply includes_trans; [exact H|exact Hsub]. }
  split; [|split; [|exact M]].
  - rewrite (location_total h "" Hall). do 2 f_equal.
    rewrite <- (filter_true (data h)) at 2. apply filter_ext_in. intros r Hr.
    rewrite Forall_forall in Hall. specialize (Hall r Hr).
    unfold location_kept. unfold has_field in Hall.
    destruct (get "host_location" r); [apply includes_empty|discriminate].
  - rewrite (location_total h long Hall). simpl.
    rewrite location_total.
    + simpl. do 2 f_equal. rewrite filter_filter. apply filter_ext.
      intros r. destruct (location_kept long r) eqn:E; [|reflexivity].
      rewrite (M r E). reflexivity.
    + simpl. apply Forall_forall. intros r Hr. apply filter_In in Hr.
      rewrite Forall_forall in Hall. apply Hall. tauto.
Qed.

Lemma filterByHostLocation_refines_witness :
  (h1 <- filterByHostLocation
           (AirBnBDataHandler
              [[("host_location", "Paris, France")];
               [("host_location", "Lyon, France")]])
           "Paris, France" ;;
   filterByHostLocation h1 "France")
  = filterByHostLocation
      (AirBnBDataHandler
         [[("host_location", "Paris, France")];
          [("host_location", "Lyon, France")]])
      "Paris, France".
Proof.
  exact (proj1 (proj2 (filterByHostLocation_refines
                         (AirBnBDataHandler
                            [[("host_location", "Paris, France")];
                             [("host_location", "Lyon, France")]])
                         "France" "Paris, France"
                         ltac:(repeat constructor) ltac:(reflexivity)))).
Defined.

(** X12: on a table whose listings all have a [host_location], filtering by
    two locations one after the other keeps the listings that contain both,
    in table order, whichever comes first. *)
Theorem filterByHostLocation_order_irrelevant (h : handler) (a b : string) :
  Forall (fun r => has_field "host_location" r = true) (data h) ->
  (h1 <- filterByHostLocation h a ;; filterByHostLocation h1 b)
  = Ok (AirBnBDataHandler
          (List.filter (fun r => location_kept a r && location_kept b r)
             (data h)))
  /\ (h1 <- filterByHostLocation h a ;; filterByHostLocation h1 b)
     = (h2 <- filterByHostLocation h b ;; filterByHostLocation h2 a).
Proof.
  intros Hall.
  assert (F : forall q, Forall (fun r => has_field "host_location" r = true)
                          (List.filter q (data h))).
  { intros q. apply Forall_forall. intros r Hr. apply filter_In in Hr.
    rewrite Forall_forall in Hall. apply Hall. tauto. }
  assert (E : forall x y,
             (h1 <- filterByHostLocation h x ;; filterByHostLocation h1 y)
             = Ok (AirBnBDataHandler
                     (List.filter
                        (fun r => location_kept x r && location_kept y r)
                        (data h)))).
  { intros x y. rewrite (location_total h x Hall). simpl.
    rewrite location_total by apply F. simpl. rewrite filter_filter.
    reflexivity. }
  split; [apply E|]. rewrite !E. do 2 f_equal. apply filter_ext.
  intros r. apply andb_comm.
Qed.

Lemma filterByHostLocation_order_irrelevant_witness :
  (h1 <- filterByHostLocation
           (AirBnBDataHandler
              [[("host_location", "Paris, France")];
               [("host_location", "Lyon, France")]])
           "France" ;;
   filterByHostLocation h1 "Lyon")
  = Ok (AirBnBDataHandler [[("host_location", "Lyon, France")]]).
Proof.
  exact (proj1 (filterByHostLocation_order_irrelevant
                  (AirBnBDataHandler
                     [[("host_location", "Paris, France")];
                      [("host_location", "Lyon, France")]])
                  "France" "Lyon" ltac:(repeat constructor))).
Defined.

(** ** [exportResults]: the default calculations *)

(** X13: at a path that can be written, [exportResults] called without
    calculations writes the document of the record sequence with an empty
    calculations object: that is what is read back. *)
Theorem exportResults_default_calculations
  (this : handler) (filePath : string) (fs : files) :
  writable fs filePath = true ->
  exists fs',
    exportResults this filePath VUndefined fs = Written fs' this
    /\ read_export filePath fs'
       = Some (VObj [("filteredListings", data_value (data this));
                     ("calculations", VObj [])]).
Proof.
  intros Hw.
  destruct (export_reads_back_nulled this filePath (VObj []) fs Hw eq_refl)
    as [fs' [E R]].
  exists fs'. split; [exact E|exact R].
Qed.

Lemma exportResults_default_calculations_witness :
  exists fs',
    exportResults (AirBnBDataHandler [[("price", "$80")]]) "out.json"
      VUndefined blank_disk
    = Written fs' (AirBnBDataHandler [[("price", "$80")]])
    /\ read_export "out.json" fs'
       = Some (VObj [("filteredListings",
                      VArr [VObj [("price", VStr "$80")]]);
                     ("calculations", VObj [])]).
Proof.
  exact (exportResults_default_calculations
           (AirBnBDataHandler [[("price", "$80")]]) "out.json" blank_disk
           ltac:(reflexivity)).
Defined.

(** ** The menu loop *)

Module ShellFacts.
Import Shell.

Lemma property_get_set {V : Type} (k k' : string) (v : V)
  (o : list (string * V)) :
  property_get k' (property_set k v o) =
  if String.eqb k k' then Some v else property_get k' o.
Proof.
  induction o as [|[k0 v0] o IH]; simpl.
  - reflexivity.
  - destruct (String.eqb_spec k0 k) as [E|N]; simpl.
    + subst k0. destruct (String.eqb k k'); reflexivity.
    + rewrite IH. destruct (String.eqb_spec k0 k') as [E'|N'].
      * subst k0. destruct (String.eqb_spec k k'); [congruence|reflexivity].
      * reflexivity.
Qed.

(** Whatever holds at the start, is kept by each menu entry that the input
    may choose and by the console, holds in the session in which the run
    ends. *)
Lemma loop_invariant (allowed : string -> bool) (I : session -> Prop) :
  (forall s m, I s -> I (log m s)) ->
  (forall s p rt b r s', allowed "1" = true -> I s ->
     choose_filter s p rt b r = Next s' -> I s') ->
  (forall s s', allowed "2" = true -> I s -> choose_stats s = Next s' -> I s') ->
  (forall s s', allowed "3" = true -> I s ->
     choose_rankings s = Next s' -> I s') ->
  (forall s l s', allowed "4" = true -> I s ->
     choose_location s l = Next s' -> I s') ->
  (forall s f s', allowed "5" = true -> I s ->
     choose_export s f = Next s' -> I s') ->
  forall input s s',
    Forall (fun line => allowed (trim line) = true) input ->
    I s -> final (loop s input) = Some s' -> I s'.
Proof.
  intros Hlog H1 H2 H3 H4 H5 input.
  assert (G : forall n input, (List.length input <= n)%nat ->
              forall s s',
                Forall (fun line => allowed (trim line) = true) input ->
                I s -> final (loop s input) = Some s' -> I s').
  { clear input. induction n as [|n IH]; intros input Hn s s' Hall Hs Hf.
    - destruct input; [|simpl in Hn; lia]. simpl in Hf.
      inversion Hf; subst. apply Hlog. exact Hs.
    - destruct input as [|choice rest].
      + simpl in Hf. inversion Hf; subst. apply Hlog. exact Hs.
      + simpl in Hn. inversion Hall as [|? ? Hc Hrest]; subst.
        assert (Hm : I (log Menu s)) by (apply Hlog; exact Hs).
        cbn [loop] in Hf.
        destruct (String.eqb_spec (trim choice) "1") as [E|_].
        { rewrite E in Hc.
          destruct rest as [|p [|rt [|b [|r rest']]]];
            try (inversion Hf; subst; exact Hm).
          destruct (choose_filter (log Menu s) p rt b r) as [s1| |] eqn:E1;
            try (inversion Hf; subst; exact Hm); try discriminate.
          eapply (IH rest'); [simpl in Hn; lia| |exact (H1 _ p rt b r s1 Hc Hm E1)|exact Hf].
          inversion Hrest as [|? ? _ Hr1]; subst.
          inversion Hr1 as [|? ? _ Hr2]; subst.
          inversion Hr2 as [|? ? _ Hr3]; subst.
          inversion Hr3; subst. assumption. }
        destruct (String.eqb_spec (trim choice) "2") as [E|_].
        { rewrite E in Hc.
          destruct (choose_stats (log Menu s)) as [s1| |] eqn:E1;
            try (inversion Hf; subst; exact Hm); try discriminate.
          eapply (IH rest); [lia|exact Hrest|exact (H2 _ s1 Hc Hm E1)|exact Hf]. }
        destruct (String.eqb_spec (trim choice) "3") as [E|_].
        { rewrite E in Hc.
          destruct (choose_rankings (log Menu s)) as [s1| |] eqn:E1;
            try (inversion Hf; subst; exact Hm); try discriminate.
          eapply (IH rest); [lia|exact Hrest|exact (H3 _ s1 Hc Hm E1)|exact Hf]. }
        destruct (String.eqb_spec (trim choice) "4") as [E|_].
        { rewrite E in Hc.
          destruct rest as [|l rest']; [inversion Hf; subst; exact Hm|].
          destruct (choose_location (log Menu s) l) as [s1| |] eqn:E1;
            try (inversion Hf; subst; exact Hm); try discriminate.
          eapply (IH rest'); [simpl in Hn; lia| |exact (H4 _ l s1 Hc Hm E1)|exact Hf].
          inversion Hrest; subst. assumption. }
        destruct (String.eqb_spec (trim choice) "5") as [E|_].
        { rewrite E in Hc.
          destruct rest as [|f rest']; [inversion Hf; subst; exact Hm|].
          destruct (choose_export (log Menu s) f) as [s1| |] eqn:E1;
            try (inversion Hf; subst; exact Hm); try discriminate.
          eapply (IH rest'); [simpl in Hn; lia| |exact (H5 _ f s1 Hc Hm E1)|exact Hf].
          inversion Hrest; subst. assumption. }
        destruct (String.eqb_spec (trim choice) "6") as [E|_].
        { inversion Hf; subst. exact Hm. }
        eapply (IH rest); [lia|exact Hrest| |exact Hf].
        apply Hlog. exact Hm. }
  intros s s'. apply (G (List.length input)). lia.
Qed.

End ShellFacts.

(** X14: whatever the user types, the working record sequence of the
    session is, when the run ends (by exit, by end of input or by an
    escaped exception), a subsequence of the listings that were loaded:
    filters accumulate and nothing restores a listing. *)
Theorem shell_working_set_only_shrinks
  (loaded : list record) (fs : files) (input : list string) (s : Shell.session) :
  Shell.final (Shell.startUI loaded fs input) = Some s ->
  subseq (data (Shell.working s)) loaded.
Proof.
  unfold Shell.startUI.
  apply (ShellFacts.loop_invariant (fun _ => true)
           (fun s => subseq (data (Shell.working s)) loaded)).
  - intros s0 m H. exact H.
  - intros s0 p rt b r s' _ H E. unfold Shell.choose_filter in E.
    destruct (filter (Shell.working s0) (filterParams p rt b r)) as [h1|] eqn:F;
      [|discriminate].
    inversion E; subst. simpl. unfold filter in F.
    destruct (filter_data _ (data (Shell.working s0))) as [d|] eqn:D;
      simpl in F; [|discriminate].
    inversion F; subst. simpl.
    eapply subseq_trans; [|exact H]. eapply filter_data_subseq. exact D.
  - intros s0 s' _ H E. unfold Shell.choose_stats in E.
    destruct (stats_value _); [|discriminate]. inversion E; subst. exact H.
  - intros s0 s' _ H E. inversion E; subst. exact H.
  - intros s0 l s' _ H E. unfold Shell.choose_location in E.
    destruct (filterByHostLocation _ _); [|discriminate].
    inversion E; subst. exact H.
  - intros s0 f s' _ H E. unfold Shell.choose_export in E.
    destruct (exportResults _ _ _ _); [|discriminate].
    inversion E; subst. exact H.
  - apply Forall_forall. reflexivity.
  - simpl. apply subseq_refl.
Qed.

Lemma shell_working_set_only_shrinks_witness :
  subseq [[("price", "$80")]] [[("price", "$80")]; [("price", "$120")]].
Proof.
  exact (shell_working_set_only_shrinks
           [[("price", "$80")]; [("price", "$120")]] blank_disk
           ["1"; "100"; ""; ""; ""; "1"; ""; ""; ""; ""; "6"]
           _ ltac:(vm_compute; reflexivity)).
Defined.

(** X15: only menu entry 5 writes a file: when no line of the input is "5"
    (once trimmed), the files are, when the run ends, what they were when
    it started. *)
Theorem shell_writes_only_on_export
  (loaded : list record) (fs : files) (input : list string) (s : Shell.session) :
  Forall (fun line => trim line <> "5") input ->
  Shell.final (Shell.startUI loaded fs input) = Some s ->
  Shell.disk s = fs.
Proof.
  intros Hin. unfold Shell.startUI.
  apply (ShellFacts.loop_invariant (fun c => negb (String.eqb c "5"))
           (fun s => Shell.disk s = fs)).
  - intros s0 m H. exact H.
  - intros s0 p rt b r s' _ H E. unfold Shell.choose_filter in E.
    destruct (filter _ _); [|discriminate]. injection E as <-. exact H.
  - intros s0 s' _ H E. unfold Shell.choose_stats in E.
    destruct (stats_value _); [|discriminate]. injection E as <-. exact H.
  - intros s0 s' _ H E. injection E as <-. exact H.
  - intros s0 l s' _ H E. unfold Shell.choose_location in E.
    destruct (filterByHostLocation _ _); [|discriminate].
    injection E as <-. exact H.
  - intros s0 f s' A. discriminate A.
  - eapply Forall_impl; [|exact Hin]. intros line Hl. simpl in Hl.
    apply negb_true_iff. apply String.eqb_neq. exact Hl.
  - reflexivity.
Qed.

Lemma shell_writes_only_on_export_witness :
  Shell.disk
    {| Shell.working := AirBnBDataHandler [[("host_id", "7")]];
       Shell.calculations := [("rankings", ranking_value [("7", 1%nat)])];
       Shell.disk := blank_disk;
       Shell.console :=
         [Shell.Loaded 1; Shell.Menu; Shell.Rankings [("7", 1%nat)];
          Shell.Menu; Shell.InvalidOption; Shell.Menu] |}
  = blank_disk.
Proof.
  exact (shell_writes_only_on_export
           [[("host_id", "7")]] blank_disk ["3"; "export"; " 6 "] _
           ltac:(repeat constructor; discriminate)
           ltac:(vm_compute; reflexivity)).
Defined.

(** X16: on a working set whose listings all have a [host_location], menu
    entry 4 records under [locationCount] the location typed and the
    number of listings that contain it, and leaves the working record
    sequence, the other calculations and the files as they are: it counts,
    it does not narrow. *)
Theorem shell_location_counts_only (s : Shell.session) (location : string) :
  Forall (fun r => has_field "host_location" r = true)
    (data (Shell.working s)) ->
  exists s',
    Shell.choose_location s location = Shell.Next s'
    /\ Shell.working s' = Shell.working s
    /\ Shell.disk s' = Shell.disk s
    /\ Shell.property_get "locationCount" (Shell.calculations s')
       = Some (VArr [VStr location;
                     VNum (of_nat (List.length
                                     (List.filter (location_kept location)
                                        (data (Shell.working s)))))])
    /\ (forall k, k <> "locationCount" ->
          Shell.property_get k (Shell.calculations s')
          = Shell.property_get k (Shell.calculations s)).
Proof.
  intros Hall. unfold Shell.choose_location.
  rewrite (location_total _ location Hall). eexists.
  split; [reflexivity|]. simpl. split; [reflexivity|split; [reflexivity|]].
  split.
  - rewrite ShellFacts.property_get_set. reflexivity.
  - intros k Hk. rewrite ShellFacts.property_get_set.
    destruct (String.eqb_spec "locationCount" k); [congruence|reflexivity].
Qed.

Lemma shell_location_counts_only_witness :
  exists s',
    Shell.choose_location
      {| Shell.working :=
           AirBnBDataHandler
             [[("host_location", "Paris, France")];
              [("host_location", "Lyon, France")]];
         Shell.calculations := []; Shell.disk := blank_disk; Shell.console := [] |}
      "Paris"
    = Shell.Next s'
    /\ Shell.working s'
       = AirBnBDataHandler
           [[("host_location", "Paris, France")];
            [("host_location", "Lyon, France")]]
    /\ Shell.property_get "locationCount" (Shell.calculations s')
       = Some (VArr [VStr "Paris"; VNum (of_nat 1)]).
Proof.
  destruct (shell_location_counts_only
              {| Shell.working :=
                   AirBnBDataHandler
                     [[("host_location", "Paris, France")];
                      [("host_location", "Lyon, France")]];
                 Shell.calculations := []; Shell.disk := blank_disk;
                 Shell.console := [] |}
              "Paris" ltac:(repeat constructor))
    as [s' [E [W [_ [L _]]]]].
  exists s'. split; [exact E|]. split; [exact W|exact L].
Defined.



(** X18: when a max price is answered at menu entry 1 and some listing of
    the working set has no price, the exception of [filter] escapes the
    loop: the run ends there, in the session as it was when the menu was
    shown, and nothing typed afterwards is processed. *)
Theorem shell_filter_exception_ends_run
  (s : Shell.session) (choice p rt b r : string) (rest : list string) :
  trim choice = "1" ->
  p <> "" ->
  Exists (fun x => has_field "price" x = false) (data (Shell.working s)) ->
  Shell.loop s (choice :: p :: rt :: b :: r :: rest)
  = Shell.Uncaught (Shell.log Shell.Menu s).
Proof.
  intros Hc Hp Hex. cbn [Shell.loop]. rewrite Hc.
  cbn [String.eqb Ascii.eqb Bool.eqb].
  unfold Shell.choose_filter, filter. cbn [Shell.working Shell.log].
  rewrite (filter_data_throws _ (parseFloat p)); [reflexivity| |exact Hex].
  simpl. rewrite (is_empty_false p Hp). reflexivity.
Qed.

Lemma shell_filter_exception_ends_run_witness :
  Shell.loop
    {| Shell.working := AirBnBDataHandler [[("bedrooms", "2")]];
       Shell.calculations := []; Shell.disk := blank_disk; Shell.console := [] |}
    [" 1"; "100"; ""; ""; ""; "5"; "out.json"; "6"]
  = Shell.Uncaught
      {| Shell.working := AirBnBDataHandler [[("bedrooms", "2")]];
         Shell.calculations := []; Shell.disk := blank_disk;
         Shell.console := [Shell.Menu] |}.
Proof.
  exact (shell_filter_exception_ends_run
           {| Shell.working := AirBnBDataHandler [[("bedrooms", "2")]];
              Shell.calculations := []; Shell.disk := blank_disk;
              Shell.console := [] |}
           " 1" "100" "" "" "" ["5"; "out.json"; "6"]
           ltac:(reflexivity) ltac:(discriminate)
           ltac:(apply Exists_cons_hd; reflexivity)).
Defined.

(** X19: at a path that can be written, menu entry 5 changes neither the
    working set nor the calculations, and the document it writes there
    holds, read back, the current working record sequence as
    [filteredListings], whatever was computed before; at a path where the
    write is refused, the failure escapes the loop: the run ends there and
    nothing typed afterwards is processed. *)
Theorem shell_export_writes_working_set (s : Shell.session) (filePath : string) :
  (writable (Shell.disk s) filePath = true ->
   exists s' c,
     Shell.choose_export s filePath = Shell.Next s'
     /\ Shell.working s' = Shell.working s
     /\ Shell.calculations s' = Shell.calculations s
     /\ read_export filePath (Shell.disk s')
        = Some (VObj [("filteredListings",
                       data_value (data (Shell.working s)));
                      ("calculations", c)]))
  /\ (writable (Shell.disk s) filePath = false ->
      Shell.choose_export s filePath = Shell.Throw
      /\ forall choice rest,
           trim choice = "5" ->
           Shell.loop s (choice :: filePath :: rest)
           = Shell.Uncaught (Shell.log Shell.Menu s)).
Proof.
  split.
  - intros Hw.
    destruct (export_reads_back_listings (Shell.working s) filePath
                (VObj (entries (Shell.calculations s))) (Shell.disk s) Hw)
      as [fs' [c [E R]]].
    unfold Shell.choose_export. rewrite E. eexists. exists c.
    split; [reflexivity|]. simpl.
    split; [reflexivity|]. split; [reflexivity|exact R].
  - intros Hw.
    assert (T : forall s0, Shell.working s0 = Shell.working s ->
                  Shell.calculations s0 = Shell.calculations s ->
                  Shell.disk s0 = Shell.disk s ->
                  Shell.choose_export s0 filePath = Shell.Throw).
    { intros s0 E1 E2 E3. unfold Shell.choose_export.
      rewrite E1, E2, E3.
      rewrite (export_fails_unwritable _ _ _ _ Hw). reflexivity. }
    split; [apply T; reflexivity|].
    intros choice rest Hc. cbn [Shell.loop]. rewrite Hc.
    cbn [String.eqb Ascii.eqb Bool.eqb].
    rewrite T by reflexivity. reflexivity.
Qed.

Lemma shell_export_writes_working_set_witness :
  (exists s' c,
     Shell.choose_export
       {| Shell.working := AirBnBDataHandler [[("price", "$80")]];
          Shell.calculations := []; Shell.disk := blank_disk;
          Shell.console := [] |} "out.json"
     = Shell.Next s'
     /\ Shell.working s' = AirBnBDataHandler [[("price", "$80")]]
     /\ Shell.calculations s' = []
     /\ read_export "out.json" (Shell.disk s')
        = Some (VObj [("filteredListings",
                       VArr [VObj [("price", VStr "$80")]]);
                      ("calculations", c)]))
  /\ Shell.loop
       {| Shell.working := AirBnBDataHandler [[("price", "$80")]];
          Shell.calculations := []; Shell.disk := blank_disk;
          Shell.console := [] |}
       ["5"; ""; "2"; "6"]
     = Shell.Uncaught
         {| Shell.working := AirBnBDataHandler [[("price", "$80")]];
            Shell.calculations := []; Shell.disk := blank_disk;
            Shell.console := [Shell.Menu] |}.
Proof.
  split.
  - exact (proj1 (shell_export_writes_working_set
                    {| Shell.working := AirBnBDataHandler [[("price", "$80")]];
                       Shell.calculations := []; Shell.disk := blank_disk;
                       Shell.console := [] |} "out.json")
             ltac:(reflexivity)).
  - exact (proj2 (proj2 (shell_export_writes_working_set
                           {| Shell.working :=
                                AirBnBDataHandler [[("price", "$80")]];
                              Shell.calculations := [];
                              Shell.disk := blank_disk;
                              Shell.console := [] |} "")
                    ltac:(reflexivity))
             "5" ["2"; "6"] ltac:(reflexivity)).
Defined.
